(** * Port lookahead dashboard: interval classification and deadweight series

    A shallow embedding of [app.py] (the dashboard) and of the occupancy
    filter of [lookahead_buques.py], with the properties of their interval
    classifier, row parser and cumulative deadweight series.

    Modelling conventions.
    - A [datetime] is the number of microseconds since the epoch (naive, no
      time zone), a [date] the number of days since the epoch and a [time]
      the number of microseconds since midnight: [datetime.combine d t] is
      [d * 86400000000 + t], and the order of [datetime] is the order of [Z].
    - A pandas column of timestamps is a column of [option datetime]: [None]
      is [NaT] (or Python's [None]), and every comparison with it is false.
    - Deadweight is whole tonnage: an [option Z], [None] for a blank cell.
      Its sums are machine sums. pandas holds a column of whole numbers in
      64-bit integers, whose additions wrap round at 2^63: [sum] and
      [cumsum] wrap in that way. A column with a blank cell is held in
      64-bit floats, where whole numbers and their sums are exact as long
      as the absolute values added stay within 2^53: every property that
      equates a machine sum with a sum of integers assumes that bound, under
      which the two representations agree. Docking hours are rationals.
    - A frame is the list of its rows, in index order. *)

From Stdlib Require Import ZArith List String Ascii Bool Lia QArith DecimalString.
From Stdlib Require Import Permutation Sorted.
Import ListNotations.
Open Scope Z_scope.

Set Implicit Arguments.

(** ** Timestamps *)

Definition date := Z.
Definition time := Z.
Definition datetime := Z.

Definition us_per_day : Z := 86400000000.

(** [datetime.min.time()] is 00:00:00 and [datetime.max.time()] is
    23:59:59.999999. *)
Definition time_min : time := 0.
Definition time_max : time := us_per_day - 1.

Definition datetime_combine (d : date) (t : time) : datetime :=
  d * us_per_day + t.

(** [.date()] and [.time()] of a timestamp. *)
Definition date_of (ts : datetime) : date := ts / us_per_day.
Definition time_of (ts : datetime) : time := ts mod us_per_day.

(** ** The processed frame [proc] *)

Record vessel : Type := mkVessel {
  SHIP : option string;
  arrival_dt : option datetime;
  departure_dt : option datetime;
  Berth : option string;
  DockingTime : option Q;
  EstDockingTime : option Q;
  DWT : option Z
}.

Definition notna {A : Type} (x : option A) : bool :=
  match x with Some _ => true | None => false end.

(** Comparison of a timestamp column entry with a bound: [NaT] compares false. *)
Definition col_lt (x : option datetime) (t : datetime) : bool :=
  match x with Some a => a <? t | None => false end.
Definition col_le (x : option datetime) (t : datetime) : bool :=
  match x with Some a => a <=? t | None => false end.
Definition col_gt (x : option datetime) (t : datetime) : bool :=
  match x with Some a => t <? a | None => false end.
Definition col_ge (x : option datetime) (t : datetime) : bool :=
  match x with Some a => t <=? a | None => false end.

(** [proc.dropna(subset=["arrival_dt","departure_dt"])] *)
Definition proc_valid (proc : list vessel) : list vessel :=
  filter (fun r => notna (arrival_dt r) && notna (departure_dt r)) proc.

(** ** Classifications (app.py, lines 175-177) *)

Definition arriving (proc_valid : list vessel) (current_dt end_dt : datetime)
  : list vessel :=
  filter (fun r => col_ge (arrival_dt r) current_dt
                   && col_le (arrival_dt r) end_dt) proc_valid.

Definition departing (proc_valid : list vessel) (current_dt end_dt : datetime)
  : list vessel :=
  filter (fun r => col_ge (departure_dt r) current_dt
                   && col_le (departure_dt r) end_dt) proc_valid.

Definition in_port (proc_valid : list vessel) (current_dt end_dt : datetime)
  : list vessel :=
  filter (fun r => col_lt (arrival_dt r) end_dt
                   && col_gt (departure_dt r) current_dt) proc_valid.

(** ** Deadweight in port (app.py, lines 377-426) *)

Definition fillna0 (x : option Z) : Z :=
  match x with Some z => z | None => 0 end.

(** A 64-bit signed integer: the value of [z] after wrap-around. *)
Definition wrap64 (z : Z) : Z :=
  (z + 9223372036854775808) mod 18446744073709551616 - 9223372036854775808.

(** Addition of two 64-bit integers. *)
Definition add64 (a b : Z) : Z := wrap64 (a + b).

(** [.sum()] of a column of 64-bit integers. *)
Definition sum (l : list Z) : Z := fold_left add64 l 0.

(** The rows selected for [initial_dwt]: vessels already in port at the
    start of the window. *)
Definition present_at_start (proc_valid : list vessel) (current_dt : datetime)
  : list vessel :=
  filter (fun r => col_lt (arrival_dt r) current_dt
                   && col_gt (departure_dt r) current_dt) proc_valid.

Definition initial_dwt (proc_valid : list vessel) (current_dt : datetime) : Z :=
  sum (map (fun r => fillna0 (DWT r)) (present_at_start proc_valid current_dt)).

(** Labels of the points of the series (the column ["Type"]). *)
Inductive label : Type := Initial | Final | Arrival | Departure.

Definition label_eqb (a b : label) : bool :=
  match a, b with
  | Initial, Initial | Final, Final | Arrival, Arrival
  | Departure, Departure => true
  | _, _ => false
  end.

(** An entry of [dwt_timeline]. *)
Record event : Type := mkEvent {
  ev_Date : datetime;
  ev_DWT : Z;
  ev_Type : label;
  ev_Vessel : option string
}.

(** [current_dt <= x <= end_dt] on a row entry. *)
Definition within (x : option datetime) (current_dt end_dt : datetime) : bool :=
  col_ge x current_dt && col_le x end_dt.

(** The events one row appends in the loop of lines 385-400: nothing when
    its deadweight is missing, else its arrival and then its departure,
    each when it falls in the window. *)
Definition row_events (row : vessel) (current_dt end_dt : datetime) : list event :=
  match DWT row with
  | None => []
  | Some dwt =>
      (match arrival_dt row with
       | Some a =>
           if within (Some a) current_dt end_dt
           then [mkEvent a dwt Arrival (SHIP row)] else []
       | None => []
       end)
      ++
      (match departure_dt row with
       | Some d =>
           if within (Some d) current_dt end_dt
           then [mkEvent d dwt Departure (SHIP row)] else []
       | None => []
       end)
  end.

Definition dwt_timeline (proc_valid : list vessel) (current_dt end_dt : datetime)
  : list event :=
  flat_map (fun row => row_events row current_dt end_dt) proc_valid.

(** [sort_values("Date")], as a stable insertion sort. The default sort of
    pandas is not stable: it may leave the events of one same date in
    another order. No property below depends on that order. *)
Fixpoint insert_by_Date (e : event) (l : list event) : list event :=
  match l with
  | [] => [e]
  | x :: t =>
      if ev_Date e <=? ev_Date x then e :: x :: t
      else x :: insert_by_Date e t
  end.

Definition sort_values_Date (l : list event) : list event :=
  fold_right insert_by_Date [] l.

(** [lambda x: x['DWT'] if x['Type'] == 'Arrival' else -x['DWT']] *)
Definition DWT_Change (x : event) : Z :=
  if label_eqb (ev_Type x) Arrival then ev_DWT x else - ev_DWT x.

Fixpoint cumsum_from (acc : Z) (l : list Z) : list Z :=
  match l with
  | [] => []
  | x :: t => add64 acc x :: cumsum_from (add64 acc x) t
  end.

(** [.cumsum()] of a column of 64-bit integers. *)
Definition cumsum (l : list Z) : list Z := cumsum_from 0 l.

(** A row of [dwt_plot]. *)
Record point : Type := mkPoint {
  pt_Date : datetime;
  pt_DWT_in_Port : Z;
  pt_Type : label
}.

Definition is_empty {A : Type} (l : list A) : bool :=
  match l with [] => true | _ :: _ => false end.

(** Lines 402-458: [Some] series when there is an event or a positive
    initial deadweight, and [None] when the dashboard only shows
    "No DWT data available for the selected period." *)
Definition dwt_plot (proc_valid : list vessel) (current_dt end_dt : datetime)
  : option (list point) :=
  let initial_dwt := initial_dwt proc_valid current_dt in
  let dwt_timeline := dwt_timeline proc_valid current_dt end_dt in
  if negb (is_empty dwt_timeline) || (0 <? initial_dwt) then
    if negb (is_empty dwt_timeline) then
      let dwt_df := sort_values_Date dwt_timeline in
      let in_port_col :=
        map (fun c => add64 initial_dwt c) (cumsum (map DWT_Change dwt_df)) in
      let initial_point := mkPoint current_dt initial_dwt Initial in
      Some (initial_point ::
            map (fun ev => mkPoint (ev_Date (fst ev)) (snd ev) (ev_Type (fst ev)))
                (combine dwt_df in_port_col))
    else
      Some [ mkPoint current_dt initial_dwt Initial;
             mkPoint end_dt initial_dwt Final ]
  else None.

(** ** Grouping by berth *)

(** The group keys of [groupby]: the distinct non-missing berths, sorted.
    Berths are held as texts, in the order of their code points; pandas
    orders a column of numeric berths by number instead. No property below
    depends on the order of the keys. *)
Fixpoint insert_key (k : string) (l : list string) : list string :=
  match l with
  | [] => [k]
  | x :: t =>
      match String.compare k x with
      | Lt => k :: x :: t
      | Eq => x :: t
      | Gt => x :: insert_key k t
      end
  end.

Definition group_keys (rows : list vessel) : list string :=
  fold_left
    (fun acc r => match Berth r with Some k => insert_key k acc | None => acc end)
    rows [].

Definition group (rows : list vessel) (k : string) : list vessel :=
  filter (fun r => match Berth r with Some b => String.eqb b k | None => false end)
         rows.

(** [count] of a column: its non-missing entries. *)
Definition count {A : Type} (col : list (option A)) : Z :=
  Z.of_nat (List.length (filter notna col)).

Fixpoint dropna {A : Type} (col : list (option A)) : list A :=
  match col with
  | [] => []
  | Some a :: t => a :: dropna t
  | None :: t => dropna t
  end.

(** [mean] of a column: missing entries are skipped, and the mean of none
    is missing. *)
Definition mean (col : list (option Q)) : option Q :=
  match dropna col with
  | [] => None
  | x :: t =>
      Some (Qred (fold_left Qplus (x :: t) 0%Q
                  / inject_Z (Z.of_nat (List.length (x :: t)))))
  end.

(** A row of the per-berth summary [occ] (app.py, lines 327-337). *)
Record berth_row : Type := mkBerthRow {
  occ_Berth : string;
  Vessels : Z;
  Total_DWT : Z;
  Avg_Docking : option Q
}.

Definition occ (in_port : list vessel) : list berth_row :=
  map (fun k =>
         let g := group in_port k in
         mkBerthRow k
                    (count (map SHIP g))
                    (sum (map (fun r => fillna0 (DWT r)) g))
                    (mean (map DockingTime g)))
      (group_keys in_port).

(** ** The lookahead script (lookahead_buques.py, lines 30-33)

    Its frame has the columns [arrival], [departure], [Muelle] and [SHIP]:
    the fields [arrival_dt], [departure_dt], [Berth] and [SHIP] of a
    [vessel]. The lookahead is a whole number of hours. *)

Definition Timedelta_hours (h : Z) : Z := h * 3600000000.

Definition activos (df : list vessel) (tiempo_actual : datetime) (lookahead_h : Z)
  : list vessel :=
  let fin_ventana := tiempo_actual + Timedelta_hours lookahead_h in
  filter (fun r => col_le (arrival_dt r) fin_ventana
                   && col_ge (departure_dt r) tiempo_actual) df.

Definition ocupacion (df : list vessel) (tiempo_actual : datetime) (lookahead_h : Z)
  : list (string * Z) :=
  let activos := activos df tiempo_actual lookahead_h in
  map (fun k => (k, count (map SHIP (group activos k)))) (group_keys activos).

(** ** Exceptions

    A Python computation either returns a value or raises. *)

Inductive exc (A : Type) : Type :=
| Val (a : A)
| Raise.

Arguments Raise {A}.

Definition bind {A B : Type} (m : exc A) (k : A -> exc B) : exc B :=
  match m with
  | Val a => k a
  | Raise => Raise
  end.

Notation "x <- m ;; k" := (bind m (fun x => k))
  (at level 61, m at next level, right associativity).

(** [try: body / except Exception: return handler] *)
Definition try_except {A : Type} (body : exc A) (handler : A) : exc A :=
  match body with
  | Val a => Val a
  | Raise => Val handler
  end.

(** ** Text

    A Python [str] is modelled by a [string] whose characters are the code
    points below 256. *)

Open Scope string_scope.

(** [str.isspace] on one character: the code points 9-13, 28-32, 133, 160. *)
Definition isspace (c : ascii) : bool :=
  let n := N_of_ascii c in
  ((9 <=? n) && (n <=? 13) || (28 <=? n) && (n <=? 32)
   || (n =? 133) || (n =? 160))%N.

Fixpoint lstrip (s : string) : string :=
  match s with
  | EmptyString => EmptyString
  | String c t => if isspace c then lstrip t else s
  end.

Fixpoint rstrip (s : string) : string :=
  match s with
  | EmptyString => EmptyString
  | String c t =>
      match rstrip t with
      | EmptyString => if isspace c then EmptyString else String c EmptyString
      | t' => String c t'
      end
  end.

(** [s.strip()] *)
Definition strip (s : string) : string := rstrip (lstrip s).

(** ['.' in s] *)
Fixpoint contains_dot (s : string) : bool :=
  match s with
  | EmptyString => false
  | String c t => Ascii.eqb c "." || contains_dot t
  end.

(** [s.split('.')[0]] *)
Fixpoint split_dot_0 (s : string) : string :=
  match s with
  | EmptyString => EmptyString
  | String c t => if Ascii.eqb c "." then EmptyString else String c (split_dot_0 t)
  end.

(** ** The row parser (app.py, lines 37-63) *)

(** A date or time cell of the sheet: missing ([NaN], [None], [NaT]), a
    [pd.Timestamp] or [datetime], or any other value, given by its [str()]
    (a text cell, a [datetime.time], a number). *)
Inductive cell : Type :=
| NA
| Stamp (ts : datetime)
| Other (str : string).

(** [pd.isna] on a scalar cell. *)
Definition isna (c : cell) : bool :=
  match c with NA => true | _ => false end.

(** The date fields of [NaT]: [NaT] is a [datetime] whose year, month and
    day are 1, 1 and 1, that is 719162 days before the epoch. *)
Definition NaT_date : date := -719162.

(** [datetime.combine(date_part, time_part)]. A time part that is [NaT] is
    a [TypeError]. A date part that is [NaT] is accepted, [NaT] being a
    [datetime]: the result is on the day 0001-01-01. *)
Definition combine_parts (date_part : option date) (time_part : option time)
  : exc datetime :=
  match date_part, time_part with
  | Some d, Some t => Val (datetime_combine d t)
  | None, Some t => Val (datetime_combine NaT_date t)
  | _, None => Raise
  end.

Section Parser.

(** The two calls into pandas that read text, as the parser uses them:
    [pd.to_datetime(s, dayfirst=True)] and
    [pd.to_datetime(s, format='%H:%M:%S')]. Each returns a timestamp,
    returns [NaT] ([Val None]), or raises. *)
Variable to_datetime_dayfirst : string -> exc (option datetime).
Variable to_datetime_HMS : string -> exc (option datetime).

(** Lines 49-50: the date part of a cell that is not a timestamp, from
    its [str()]. *)
Definition date_of_text (date_val : string) : exc (option date) :=
  let date_str := strip date_val in
  ts <- to_datetime_dayfirst date_str ;;
  Val (option_map date_of ts).

(** Lines 55-58: the time part of a cell that is not a timestamp, from
    its [str()]. *)
Definition time_of_text (time_val : string) : exc (option time) :=
  let time_str := strip time_val in
  let time_str :=
    if contains_dot time_str then split_dot_0 time_str else time_str in
  ts <- to_datetime_HMS time_str ;;
  Val (option_map time_of ts).

(** Lines 46-50. The [str()] of a missing cell is ["nan"]; the parser
    returns before it reads one. *)
Definition date_part_of (date_val : cell) : exc (option date) :=
  match date_val with
  | Stamp ts => Val (Some (date_of ts))
  | Other s => date_of_text s
  | NA => date_of_text "nan"
  end.

(** Lines 52-58. *)
Definition time_part_of (time_val : cell) : exc (option time) :=
  match time_val with
  | Stamp ts => Val (Some (time_of ts))
  | Other s => time_of_text s
  | NA => time_of_text "nan"
  end.

Definition parse_datetime_from_row (date_val time_val : cell)
  : exc (option datetime) :=
  if isna date_val || isna time_val then Val None
  else
    try_except
      (date_part <- date_part_of date_val ;;
       time_part <- time_part_of time_val ;;
       dt <- combine_parts date_part time_part ;;
       Val (Some dt))
      None.

(** ** The uploaded sheet and the run of the dashboard

    A row of the sheet holds, for each field the dashboard reads, the cell
    under the column detected for that field. *)

Record sheet_row : Type := mkRow {
  x_ship : option string;
  x_arr_day : cell;
  x_arr_time : cell;
  x_dep_day : cell;
  x_dep_time : cell;
  x_berth : option string;
  x_docking : option Q;
  x_est_docking : option Q;
  x_dwt : option Z
}.

Record DataFrame : Type := mkFrame {
  columns : list string;
  index : list sheet_row
}.

(** Lines 31-35: the first candidate that is a column of the frame. *)
Definition try_get_col (df : DataFrame) (candidates : list string)
  : option string :=
  find (fun c => existsb (String.eqb c) (columns df)) candidates.

Record detected : Type := mkDetected {
  col_ship : option string;
  col_arr_day : option string;
  col_arr_time : option string;
  col_dep_day : option string;
  col_dep_time : option string;
  col_berth : option string;
  col_docking : option string;
  col_est_docking : option string;
  col_dwt : option string
}.

(** Lines 104-112. *)
Definition detect (df : DataFrame) : detected :=
  mkDetected
    (try_get_col df ["SHIP"; "Ship"; "ship"; "Buque"; "BUQUE"; "NOMBRE"; "Vessel"])
    (try_get_col df ["Arrival day"; "ArrivalDay"; "arrivalDay"; "Arrival_day";
                     "ETA date"; "Arrival date"])
    (try_get_col df ["Arrival time"; "arrivalTime"; "ArrivalTime"; "ETA time"; "ETA"])
    (try_get_col df ["Departure day"; "DepartureDay"; "depDay"; "Departure_day";
                     "ETD date"; "Departure date"])
    (try_get_col df ["Departure time"; "departureTime"; "ETD time"; "ETD";
                     "Departure_time"])
    (try_get_col df ["Arrival"; "Berth"; "Pier"; "Muelle"; "muelle"; "BERTH";
                     "Terminal"])
    (try_get_col df ["Docking time (h)"; "DockingTime"; "dockingTime";
                     "Docking Time"; "Docking"])
    (try_get_col df ["Estimated Docking Time (h)"; "EstDockingTime";
                     "estDockingTime"; "Est Docking Time"; "EstDocking"])
    (try_get_col df ["DWT"; "dwt"; "Deadweight"; "DeadWeight"]).

Definition if_none {A : Type} (col : option A) (name : string) : list string :=
  match col with None => [name] | Some _ => [] end.

(** Lines 115-120. *)
Definition missing (c : detected) : list string :=
  if_none (col_ship c) "SHIP/Vessel"
  ++ if_none (col_arr_day c) "Arrival day"
  ++ if_none (col_arr_time c) "Arrival time"
  ++ if_none (col_dep_day c) "Departure day"
  ++ if_none (col_dep_time c) "Departure time".

(** [df.loc[i, col]]: the cell [v] under the column, a [KeyError] when the
    label is [None]. *)
Definition loc {A : Type} (col : option string) (v : A) : exc A :=
  match col with Some _ => Val v | None => Raise end.

(** [df.loc[i, col] if col else default] *)
Definition loc_or {A : Type} (col : option string) (v default : A) : A :=
  match col with Some _ => v | None => default end.

(** Lines 139-154: the body of the loop for the row of index [i]. *)
Definition process_row (c : detected) (i : nat) (row : sheet_row) : exc vessel :=
  arr_day <- loc (col_arr_day c) (x_arr_day row) ;;
  arr_time <- loc (col_arr_time c) (x_arr_time row) ;;
  arr_dt <- parse_datetime_from_row arr_day arr_time ;;
  dep_day <- loc (col_dep_day c) (x_dep_day row) ;;
  dep_time <- loc (col_dep_time c) (x_dep_time row) ;;
  dep_dt <- parse_datetime_from_row dep_day dep_time ;;
  let ship_val :=
    loc_or (col_ship c) (x_ship row)
           (Some ("Vessel_" ++ NilZero.string_of_uint (Nat.to_uint i))) in
  let berth_val := loc_or (col_berth c) (x_berth row) None in
  let dock_val := loc_or (col_docking c) (x_docking row) None in
  let est_dock_val := loc_or (col_est_docking c) (x_est_docking row) None in
  let dwt_val := loc_or (col_dwt c) (x_dwt row) None in
  Val (mkVessel ship_val arr_dt dep_dt berth_val dock_val est_dock_val dwt_val).

(** What the parser returns, as a value. *)
Definition parsed (date_val time_val : cell) : option datetime :=
  match parse_datetime_from_row date_val time_val with
  | Val r => r
  | Raise => None
  end.

(** The record the loop appends for a row, once the required columns are
    detected. *)
Definition record_of (c : detected) (row : sheet_row) : vessel :=
  mkVessel (x_ship row)
           (parsed (x_arr_day row) (x_arr_time row))
           (parsed (x_dep_day row) (x_dep_time row))
           (loc_or (col_berth c) (x_berth row) None)
           (loc_or (col_docking c) (x_docking row) None)
           (loc_or (col_est_docking c) (x_est_docking row) None)
           (loc_or (col_dwt c) (x_dwt row) None).

(** Lines 137-166: the loop; a row whose body raises is skipped. *)
Fixpoint process_from (c : detected) (i : nat) (rows : list sheet_row)
  : list vessel :=
  match rows with
  | [] => []
  | row :: rest =>
      match process_row c i row with
      | Val v => v :: process_from c (S i) rest
      | Raise => process_from c (S i) rest
      end
  end.

Definition process (c : detected) (df : DataFrame) : list vessel :=
  process_from c 0 (index df).

(** What the dashboard shows once every check has passed. *)
Record results : Type := mkResults {
  r_arriving : list vessel;
  r_departing : list vessel;
  r_in_port : list vessel;
  r_occ : option (list berth_row);
  r_initial_dwt : Z;
  r_dwt_plot : option (list point)
}.

(** The places where the script calls [st.stop()]. *)
Inductive halt : Type :=
| NoUpload
| ReadError
| ConfigError
| MissingColumns (names : list string)
| NoValidData.

Inductive outcome : Type :=
| Stopped (why : halt)
| Rendered (r : results).

(** One run of the script. [uploaded] is [None] when no file was uploaded,
    and else what [pd.read_excel] did with the file. *)
Definition dashboard (uploaded : option (exc DataFrame))
           (start_date end_date : date) : outcome :=
  match uploaded with
  | None => Stopped NoUpload
  | Some Raise => Stopped ReadError
  | Some (Val df) =>
      let current_dt := datetime_combine start_date time_min in
      let end_dt := datetime_combine end_date time_max in
      if (end_dt <=? current_dt)%Z then Stopped ConfigError
      else
        let c := detect df in
        if negb (is_empty (missing c)) then Stopped (MissingColumns (missing c))
        else
          let proc := process c df in
          let proc_valid := proc_valid proc in
          if is_empty proc_valid then Stopped NoValidData
          else
            let arriving := arriving proc_valid current_dt end_dt in
            let departing := departing proc_valid current_dt end_dt in
            let in_port := in_port proc_valid current_dt end_dt in
            Rendered
              (mkResults arriving departing in_port
                         (if is_empty in_port then None else Some (occ in_port))
                         (initial_dwt proc_valid current_dt)
                         (dwt_plot proc_valid current_dt end_dt))
  end.

End Parser.

(** ** A reference reading of the two pandas calls

    The properties of the parser hold for whatever the two calls return.
    To run the parser on examples, the calls are read on the plain numeric
    forms: [D/M/YYYY] for a day-first date, and [H:M:S] with one or two
    digits a field for the format [%H:%M:%S], which gives a timestamp on
    1900-01-01. Both calls return [NaT] on the empty text. *)

(** Days from 1970-01-01 to the day [d] of month [m] of year [y]
    (proleptic Gregorian calendar). *)
Definition days_from_civil (y m d : Z) : date :=
  (let y' := if m <=? 2 then y - 1 else y in
   let era := y' / 400 in
   let yoe := y' - era * 400 in
   let mp := (m + 9) mod 12 in
   let doy := (153 * mp + 2) / 5 + d - 1 in
   let doe := yoe * 365 + yoe / 4 - yoe / 100 + doy in
   era * 146097 + doe - 719468)%Z.

(** The time [h:m:s] of a day. *)
Definition hms (h m s : Z) : time := ((h * 3600 + m * 60 + s) * 1000000)%Z.

(** The timestamp of [y-m-d h:mi:s]. *)
Definition ymd_hms (y m d h mi s : Z) : datetime :=
  datetime_combine (days_from_civil y m d) (hms h mi s).

Definition digit_value (c : ascii) : option Z :=
  let n := N_of_ascii c in
  if ((48 <=? n) && (n <=? 57))%N then Some (Z.of_N n - 48)%Z else None.

Fixpoint digits_from (acc : Z) (s : string) : option Z :=
  match s with
  | EmptyString => Some acc
  | String c t =>
      match digit_value c with
      | Some v => digits_from (acc * 10 + v)%Z t
      | None => None
      end
  end.

(** The number a field of at least one and at most [width] digits writes,
    when it is at most [bound]. *)
Definition field (width : nat) (bound : Z) (s : string) : option Z :=
  if (Nat.leb 1 (String.length s) && Nat.leb (String.length s) width)%bool then
    match digits_from 0 s with
    | Some v => if (v <=? bound)%Z then Some v else None
    | None => None
    end
  else None.

Fixpoint split_on (sep : ascii) (s : string) : list string :=
  match s with
  | EmptyString => [EmptyString]
  | String c t =>
      if Ascii.eqb c sep then EmptyString :: split_on sep t
      else
        match split_on sep t with
        | h :: r => String c h :: r
        | [] => [String c EmptyString]
        end
  end.

Definition ref_to_datetime_HMS (s : string) : exc (option datetime) :=
  if String.eqb s "" then Val None else
  match split_on ":" s with
  | [h; m; sec] =>
      match field 2 23 h, field 2 59 m, field 2 59 sec with
      | Some h, Some m, Some sec =>
          Val (Some (datetime_combine (days_from_civil 1900 1 1) (hms h m sec)))
      | _, _, _ => Raise
      end
  | _ => Raise
  end.

Definition ref_to_datetime_dayfirst (s : string) : exc (option datetime) :=
  if String.eqb s "" then Val None else
  match split_on "/" s with
  | [d; m; y] =>
      match field 2 31 d, field 2 12 m, field 4 9999 y with
      | Some d, Some m, Some y =>
          if ((1 <=? d) && (1 <=? m) && (1 <=? y))%Z
          then Val (Some (datetime_combine (days_from_civil y m d) time_min))
          else Raise
      | _, _, _ => Raise
      end
  | _ => Raise
  end.

(** ** The statements of the specification, in its own words *)

(** "Truncating any fractional-seconds suffix": the text up to its first
    ['.'], the whole text when it has none. *)
Definition truncate_fraction (s : string) : string :=
  match String.index 0%nat "." s with
  | Some n => substring 0%nat n s
  | None => s
  end.

(** "Sum of deadweight over records with arrival < window.start AND
    departure > window.start, missing deadweight treated as 0", over the
    records as parsed. *)
Fixpoint deadweight_present_at (start : datetime) (records : list vessel) : Z :=
  match records with
  | [] => 0%Z
  | r :: rest =>
      (match arrival_dt r, departure_dt r with
       | Some a, Some d =>
           if ((a <? start) && (start <? d))%Z
           then match DWT r with Some w => w | None => 0 end
           else 0
       | _, _ => 0
       end + deadweight_present_at start rest)%Z
  end.

(** A record is valid when both of its timestamps parsed. *)
Definition valid (r : vessel) : Prop :=
  arrival_dt r <> None /\ departure_dt r <> None.

(** ** Example data *)

(** The vessel of the scenario of the specification: in port from
    2025-10-10 08:00 to 2025-10-15 10:00, 50000 t. *)
Definition vessel_A : vessel :=
  mkVessel (Some "A") (Some (ymd_hms 2025 10 10 8 0 0))
           (Some (ymd_hms 2025 10 15 10 0 0)) (Some "B1") None None (Some 50000%Z).

(** A vessel with no deadweight on record, arriving inside the window. *)
Definition vessel_B : vessel :=
  mkVessel (Some "B") (Some (ymd_hms 2025 10 14 6 0 0))
           (Some (ymd_hms 2025 10 16 18 0 0)) (Some "B2") None None None.

(** A vessel gone before the window opens. *)
Definition vessel_C : vessel :=
  mkVessel (Some "C") (Some (ymd_hms 2025 10 1 0 0 0))
           (Some (ymd_hms 2025 10 2 0 0 0)) (Some "B1") None None (Some 30000%Z).

(** A vessel in port over the whole window. *)
Definition vessel_D : vessel :=
  mkVessel (Some "D") (Some (ymd_hms 2025 10 1 0 0 0))
           (Some (ymd_hms 2025 11 1 0 0 0)) (Some "B3") None None (Some 42000%Z).

(** A vessel leaving at the very start of the window. *)
Definition vessel_E : vessel :=
  mkVessel (Some "E") (Some (ymd_hms 2025 10 12 0 0 0))
           (Some (ymd_hms 2025 10 13 0 0 0)) (Some "B2") None None (Some 10000%Z).

(** The default window of the dashboard: 2025-10-13 to 2025-10-20. *)
Definition start_2025_10_13 : date := days_from_civil 2025 10 13.
Definition end_2025_10_20 : date := days_from_civil 2025 10 20.
Definition w_start : datetime := datetime_combine start_2025_10_13 time_min.
Definition w_end : datetime := datetime_combine end_2025_10_20 time_max.

(** A sheet with one good row, one row with a blank departure time and one
    row with an unreadable arrival date. *)
Definition sheet_columns : list string :=
  ["SHIP"; "Arrival day"; "Arrival time"; "Departure day"; "Departure time";
   "Berth"; "DWT"].

Definition row_good : sheet_row :=
  mkRow (Some "A") (Other "10/10/2025") (Other "08:00:00")
        (Stamp (ymd_hms 2025 10 15 0 0 0)) (Other " 10:00:00.250 ")
        (Some "B1") None None (Some 50000%Z).

Definition row_blank : sheet_row :=
  mkRow (Some "F") (Other "14/10/2025") (Other "06:00:00")
        (Other "16/10/2025") NA (Some "B2") None None (Some 20000%Z).

Definition row_unreadable : sheet_row :=
  mkRow (Some "G") (Other "soon") (Other "06:00:00")
        (Other "16/10/2025") (Other "18:00:00") (Some "B2") None None None.

Definition sheet : DataFrame :=
  mkFrame sheet_columns [row_good; row_blank; row_unreadable].

(** The frame [proc] of that sheet under the reference reading, and the
    record its second row gives: no departure. *)
Definition sheet_proc : list vessel :=
  process ref_to_datetime_dayfirst ref_to_datetime_HMS (detect sheet) sheet.


(** ** The window length and the KPIs (app.py, lines 97 and 183-201) *)

(** Line 97: [(end_dt - current_dt).days], the whole days of the
    difference. *)
Definition analysis_days (current_dt end_dt : datetime) : Z :=
  ((end_dt - current_dt) / us_per_day)%Z.

(** [int(x)] of a whole number [x]: the number itself. *)
Definition int (x : Z) : Z := x.

(** Lines 185, 190 and 195: the deadweight shown under a count,
    [int(subset['DWT'].sum())] unless every deadweight of the subset is
    missing or the subset is empty, and 0 then. *)
Definition kpi_dwt (subset : list vessel) : Z :=
  if negb (forallb (fun r => negb (notna (DWT r))) subset)
     && (0 <? Z.of_nat (List.length subset))%Z
  then int (sum (map (fun r => fillna0 (DWT r)) subset))
  else 0%Z.

(** Line 199. *)
Definition total_operations (arriving departing : list vessel) : Z :=
  (Z.of_nat (List.length arriving) + Z.of_nat (List.length departing))%Z.

(** ** Words for the properties of [strip] *)

Fixpoint all_space (s : string) : bool :=
  match s with
  | EmptyString => true
  | String c t => isspace c && all_space t
  end.

Definition first_char (s : string) : option ascii :=
  match s with
  | EmptyString => None
  | String c _ => Some c
  end.

Fixpoint last_char (s : string) : option ascii :=
  match s with
  | EmptyString => None
  | String c EmptyString => Some c
  | String _ t => last_char t
  end.

(** ** Words for the properties of the sums *)

(** The sum of a list of integers. *)
Definition total (l : list Z) : Z := fold_left Z.add l 0.

(** The absolute values of the deadweights of the rows, added up. *)
Definition tonnage (rows : list vessel) : Z :=
  total (map (fun r => Z.abs (fillna0 (DWT r))) rows).

(** The bound under which 64-bit integers and 64-bit floats both hold
    whole numbers and their sums exactly: 2^53. *)
Definition exact_limit : Z := 9007199254740992.

(** Two vessels of 2^62 t each, in port over the whole window. *)
Definition vessel_H1 : vessel :=
  mkVessel (Some "H1") (Some (ymd_hms 2025 10 1 0 0 0))
           (Some (ymd_hms 2025 11 1 0 0 0)) (Some "B1") None None
           (Some 4611686018427387904%Z).

Definition vessel_H2 : vessel :=
  mkVessel (Some "H2") (Some (ymd_hms 2025 10 2 0 0 0))
           (Some (ymd_hms 2025 11 2 0 0 0)) (Some "B2") None None
           (Some 4611686018427387904%Z).

(** ** Words for the properties of the series *)

(** The rows the sorted events give to the series, the running sum of the
    changes being [acc] before them: each row adds the change of its event. *)
Fixpoint series_rows (initial acc : Z) (evs : list event) : list point :=
  match evs with
  | [] => []
  | e :: rest =>
      mkPoint (ev_Date e) (initial + (acc + DWT_Change e))%Z (ev_Type e)
      :: series_rows initial (acc + DWT_Change e)%Z rest
  end.

(** The same rows with the machine additions of the code. *)
Fixpoint series_rows64 (initial acc : Z) (evs : list event) : list point :=
  match evs with
  | [] => []
  | e :: rest =>
      mkPoint (ev_Date e) (add64 initial (add64 acc (DWT_Change e))) (ev_Type e)
      :: series_rows64 initial (add64 acc (DWT_Change e)) rest
  end.

(** The absolute values the series adds up: the deadweights in port at the
    start and the deadweights of the events. *)
Definition series_tonnage (pv : list vessel) (current_dt end_dt : datetime) : Z :=
  (tonnage (present_at_start pv current_dt)
   + total (map (fun ev => Z.abs (ev_DWT ev))
                (dwt_timeline pv current_dt end_dt)))%Z.

(** A sheet with the five required columns only, under other names. *)
Definition sheet_plain : DataFrame :=
  mkFrame ["Vessel"; "ETA date"; "ETA"; "ETD date"; "ETD"]
          [row_good; row_blank; row_unreadable].

(** ** Words for the properties of the grouping *)

(** The strict order of berth names: the order of their code points. *)
Definition str_lt (a b : string) : Prop := String.compare a b = Lt.

(** The record has a berth, and it is one of [keys]. *)
Definition has_berth_in (keys : list string) (r : vessel) : bool :=
  match Berth r with
  | Some b => existsb (String.eqb b) keys
  | None => false
  end.

(** * Properties *)

(** ** The model on the example data *)

(** The scenario of the specification: [vessel_A] is In-Port and Departing
    in the default window, and not Arriving. *)
Example scenario_vessel_A :
  in_port (proc_valid [vessel_A]) w_start w_end = [vessel_A]
  /\ departing (proc_valid [vessel_A]) w_start w_end = [vessel_A]
  /\ arriving (proc_valid [vessel_A]) w_start w_end = [].
Proof. vm_compute. repeat split; reflexivity. Qed.

(** The series of a frame with events: seeded with the 92000 t in port at
    the start, then one point per event in date order. *)
Example series_with_events :
  dwt_plot (proc_valid [vessel_A; vessel_B; vessel_C; vessel_D; vessel_E])
           w_start w_end
  = Some [ mkPoint w_start 92000%Z Initial;
           mkPoint w_start 82000%Z Departure;
           mkPoint (ymd_hms 2025 10 15 10 0 0) 32000%Z Departure ].
Proof. vm_compute. reflexivity. Qed.

(** The day of [NaT] is 0001-01-01. *)
Example NaT_date_is_0001_01_01 : days_from_civil 1 1 1 = NaT_date.
Proof. reflexivity. Qed.

(** A date text of white space only is read as [NaT] with no exception:
    the parser returns the time on the day 0001-01-01, a timestamp. *)
Example parse_blank_date_text :
  parse_datetime_from_row ref_to_datetime_dayfirst ref_to_datetime_HMS
                          (Other " ") (Other "06:00:00")
  = Val (Some (ymd_hms 1 1 1 6 0 0)).
Proof. vm_compute. reflexivity. Qed.

Example strip_spaces : strip "  14:30:45 " = "14:30:45".
Proof. reflexivity. Qed.

Example split_dot_0_fraction : split_dot_0 "14:30:45.500" = "14:30:45".
Proof. reflexivity. Qed.

(** The sheet under the reference reading: only its first row is valid. *)
Example sheet_run :
  exists res,
    dashboard ref_to_datetime_dayfirst ref_to_datetime_HMS
              (Some (Val sheet)) start_2025_10_13 end_2025_10_20
    = Rendered res
    /\ List.length sheet_proc = 3%nat
    /\ r_in_port res = [vessel_A]
    /\ r_initial_dwt res = 50000%Z.
Proof. eexists. vm_compute. repeat split; reflexivity. Qed.

(** ** Column comparisons and the valid frame *)

Lemma col_lt_spec (x : option datetime) (t : datetime) :
  col_lt x t = true <-> exists a, x = Some a /\ (a < t)%Z.
Proof.
  destruct x as [a|]; simpl.
  - rewrite Z.ltb_lt. split.
    + intros H. exists a. split; [reflexivity | exact H].
    + intros [b [Hb Hlt]]. injection Hb as ->. exact Hlt.
  - split; [discriminate | intros [b [Hb _]]; discriminate].
Qed.

Lemma col_gt_spec (x : option datetime) (t : datetime) :
  col_gt x t = true <-> exists a, x = Some a /\ (a > t)%Z.
Proof.
  destruct x as [a|]; simpl.
  - rewrite Z.ltb_lt. split.
    + intros H. exists a. split; [reflexivity | lia].
    + intros [b [Hb Hlt]]. injection Hb as ->. lia.
  - split; [discriminate | intros [b [Hb _]]; discriminate].
Qed.

Lemma col_le_spec (x : option datetime) (t : datetime) :
  col_le x t = true <-> exists a, x = Some a /\ (a <= t)%Z.
Proof.
  destruct x as [a|]; simpl.
  - rewrite Z.leb_le. split.
    + intros H. exists a. split; [reflexivity | exact H].
    + intros [b [Hb Hle]]. injection Hb as ->. exact Hle.
  - split; [discriminate | intros [b [Hb _]]; discriminate].
Qed.

Lemma col_ge_spec (x : option datetime) (t : datetime) :
  col_ge x t = true <-> exists a, x = Some a /\ (t <= a)%Z.
Proof.
  destruct x as [a|]; simpl.
  - rewrite Z.leb_le. split.
    + intros H. exists a. split; [reflexivity | exact H].
    + intros [b [Hb Hle]]. injection Hb as ->. exact Hle.
  - split; [discriminate | intros [b [Hb _]]; discriminate].
Qed.

Lemma within_spec (x : option datetime) (current_dt end_dt : datetime) :
  within x current_dt end_dt = true <->
  exists a, x = Some a /\ (current_dt <= a <= end_dt)%Z.
Proof.
  unfold within. rewrite andb_true_iff, col_ge_spec, col_le_spec. split.
  - intros [[a [Ha Hge]] [b [Hb Hle]]].
    rewrite Ha in Hb. injection Hb as <-. exists a. auto.
  - intros [a [Ha [Hge Hle]]]. split; exists a; auto.
Qed.

Lemma notna_spec {A : Type} (x : option A) :
  notna x = true <-> exists a, x = Some a.
Proof.
  destruct x as [a|]; simpl; split; try discriminate.
  - intros _. exists a. reflexivity.
  - reflexivity.
  - intros [a Ha]. discriminate.
Qed.

Lemma valid_spec (r : vessel) :
  valid r <-> exists a d, arrival_dt r = Some a /\ departure_dt r = Some d.
Proof.
  unfold valid. destruct (arrival_dt r) as [a|], (departure_dt r) as [d|]; split.
  all: try (intros [H1 H2]; congruence).
  all: try (intros [a' [d' [H1 H2]]]; congruence).
  - intros _. exists a, d. auto.
  - intros _. split; discriminate.
Qed.

Lemma proc_valid_In (proc : list vessel) (r : vessel) :
  In r (proc_valid proc) <-> In r proc /\ valid r.
Proof.
  unfold proc_valid. rewrite filter_In, andb_true_iff, !notna_spec, valid_spec.
  split.
  - intros [Hin [[a Ha] [d Hd]]]. split; [exact Hin | exists a, d; auto].
  - intros [Hin [a [d [Ha Hd]]]]. split; [exact Hin | split; eauto].
Qed.

(** ** Sums *)

Lemma fold_add_shift (l : list Z) (acc : Z) :
  fold_left Z.add l acc = (acc + fold_left Z.add l 0)%Z.
Proof.
  revert acc. induction l as [|x l IH]; intros acc; simpl.
  - lia.
  - rewrite (IH (acc + x)%Z), (IH x). lia.
Qed.

Lemma total_cons (x : Z) (l : list Z) : total (x :: l) = (x + total l)%Z.
Proof. unfold total. simpl. apply fold_add_shift. Qed.

Lemma total_nil : total [] = 0%Z.
Proof. reflexivity. Qed.

Lemma wrap64_small (z : Z) :
  (- 9223372036854775808 <= z < 9223372036854775808)%Z -> wrap64 z = z.
Proof.
  intros Hz. unfold wrap64. rewrite Z.mod_small by lia. lia.
Qed.

Lemma total_abs_nonneg (l : list Z) : (0 <= total (map Z.abs l))%Z.
Proof.
  induction l as [|x l IH]; [unfold total; simpl; lia |].
  simpl map. rewrite total_cons. lia.
Qed.

Lemma abs_total_le (l : list Z) : (Z.abs (total l) <= total (map Z.abs l))%Z.
Proof.
  induction l as [|x l IH]; [unfold total; simpl; lia |].
  simpl map. rewrite !total_cons. lia.
Qed.

(** A machine sum is the sum of the integers when the absolute values
    added stay within the bound. *)
Lemma fold_add64_exact (l : list Z) (acc : Z) :
  (Z.abs acc + total (map Z.abs l) <= exact_limit)%Z ->
  fold_left add64 l acc = (acc + total l)%Z.
Proof.
  revert acc. induction l as [|x l IH]; intros acc Hb.
  - unfold total. simpl. lia.
  - simpl map in Hb. rewrite total_cons in Hb. simpl fold_left.
    pose proof (total_abs_nonneg l) as Hnn.
    assert (Hadd : add64 acc x = (acc + x)%Z).
    { unfold add64. apply wrap64_small. unfold exact_limit in Hb. lia. }
    rewrite Hadd, IH, total_cons; [lia | lia].
Qed.

Lemma sum_exact (l : list Z) :
  (total (map Z.abs l) <= exact_limit)%Z -> sum l = total l.
Proof.
  intros Hb. unfold sum. rewrite fold_add64_exact; [lia | simpl; exact Hb].
Qed.

Lemma tonnage_cons (r : vessel) (l : list vessel) :
  tonnage (r :: l) = (Z.abs (fillna0 (DWT r)) + tonnage l)%Z.
Proof. unfold tonnage. simpl map. apply total_cons. Qed.

Lemma tonnage_nonneg (l : list vessel) : (0 <= tonnage l)%Z.
Proof.
  induction l as [|r l IH]; [unfold tonnage, total; simpl; lia |].
  rewrite tonnage_cons. lia.
Qed.

Lemma tonnage_filter (p : vessel -> bool) (l : list vessel) :
  (tonnage (filter p l) <= tonnage l)%Z.
Proof.
  induction l as [|r l IH]; [simpl; lia |].
  simpl. destruct (p r); rewrite !tonnage_cons; lia.
Qed.

(** The machine sum of the deadweights of rows within the bound. *)
Lemma sum_dwt_exact (rows : list vessel) :
  (tonnage rows <= exact_limit)%Z ->
  sum (map (fun r => fillna0 (DWT r)) rows)
  = total (map (fun r => fillna0 (DWT r)) rows).
Proof.
  intros Hb. apply sum_exact. rewrite map_map. exact Hb.
Qed.

(** ** The interval classifier *)

Lemma in_port_In (proc : list vessel) (current_dt end_dt : datetime) (r : vessel) :
  In r (in_port (proc_valid proc) current_dt end_dt) <->
  In r proc /\
  exists a d, arrival_dt r = Some a /\ departure_dt r = Some d /\
              (a < end_dt)%Z /\ (d > current_dt)%Z.
Proof.
  unfold in_port.
  rewrite filter_In, andb_true_iff, col_lt_spec, col_gt_spec, proc_valid_In.
  split.
  - intros [[Hin _] [[a [Ha Hlt]] [d [Hd Hgt]]]].
    split; [exact Hin | exists a, d; auto].
  - intros [Hin [a [d [Ha [Hd [Hlt Hgt]]]]]].
    split; [split; [exact Hin | apply valid_spec; eauto] |].
    split; [exists a | exists d]; auto.
Qed.

(** C1. A record is in the In-Port subset exactly when it is a valid record
    of the frame with [arrival < end] and [departure > start]; a record
    that departs exactly at [start], or arrives exactly at [end], is not in
    it. This holds for every window (also one with [end <= start]). *)
Theorem in_port_membership :
  forall (proc : list vessel) (current_dt end_dt : datetime) (r : vessel),
    (In r (in_port (proc_valid proc) current_dt end_dt) <->
     In r proc /\
     exists a d, arrival_dt r = Some a /\ departure_dt r = Some d /\
                 (a < end_dt)%Z /\ (d > current_dt)%Z)
    /\ (departure_dt r = Some current_dt ->
        ~ In r (in_port (proc_valid proc) current_dt end_dt))
    /\ (arrival_dt r = Some end_dt ->
        ~ In r (in_port (proc_valid proc) current_dt end_dt)).
Proof.
  intros proc current_dt end_dt r.
  split; [apply in_port_In | split].
  - intros Hdep Hmem. apply in_port_In in Hmem.
    destruct Hmem as [_ [a [d [_ [Hd [_ Hgt]]]]]].
    rewrite Hdep in Hd. injection Hd as <-. lia.
  - intros Harr Hmem. apply in_port_In in Hmem.
    destruct Hmem as [_ [a [d [Ha [_ [Hlt _]]]]]].
    rewrite Harr in Ha. injection Ha as <-. lia.
Qed.

(** C5. A record is in the Arriving subset exactly when it is a valid
    record of the frame with [start <= arrival <= end], and in the
    Departing subset exactly when it is one with
    [start <= departure <= end]; both bounds are inclusive. *)
Theorem arriving_departing_membership :
  forall (proc : list vessel) (current_dt end_dt : datetime) (r : vessel),
    (In r (arriving (proc_valid proc) current_dt end_dt) <->
     In r proc /\ valid r /\
     exists a, arrival_dt r = Some a /\ (current_dt <= a <= end_dt)%Z)
    /\
    (In r (departing (proc_valid proc) current_dt end_dt) <->
     In r proc /\ valid r /\
     exists d, departure_dt r = Some d /\ (current_dt <= d <= end_dt)%Z).
Proof.
  intros proc current_dt end_dt r. unfold arriving, departing.
  rewrite !filter_In, !proc_valid_In.
  change (col_ge (arrival_dt r) current_dt && col_le (arrival_dt r) end_dt)
    with (within (arrival_dt r) current_dt end_dt).
  change (col_ge (departure_dt r) current_dt && col_le (departure_dt r) end_dt)
    with (within (departure_dt r) current_dt end_dt).
  rewrite !within_spec. tauto.
Qed.

(** C10. In a window with [end > start], every record counted in
    [initial_dwt] (a valid record with [arrival < start] and
    [departure > start]) is in the In-Port subset. *)
Theorem initial_rows_in_port :
  forall (proc : list vessel) (current_dt end_dt : datetime),
    (current_dt < end_dt)%Z ->
    forall r : vessel,
      In r (present_at_start (proc_valid proc) current_dt) ->
      In r (in_port (proc_valid proc) current_dt end_dt).
Proof.
  intros proc current_dt end_dt Hwin r. unfold present_at_start, in_port.
  rewrite !filter_In, !andb_true_iff, !col_lt_spec, !col_gt_spec.
  intros [Hin [[a [Ha Hlt]] Hgt]].
  split; [exact Hin | split; [| exact Hgt]].
  exists a. split; [exact Ha | lia].
Qed.

Lemma initial_rows_in_port_witness :
  (w_start < w_end)%Z
  /\ In vessel_D (present_at_start (proc_valid [vessel_C; vessel_D]) w_start)
  /\ In vessel_D (in_port (proc_valid [vessel_C; vessel_D]) w_start w_end).
Proof.
  assert (Hwin : (w_start < w_end)%Z) by (vm_compute; reflexivity).
  assert (Hin : In vessel_D
                   (present_at_start (proc_valid [vessel_C; vessel_D]) w_start))
    by (vm_compute; left; reflexivity).
  split; [exact Hwin | split; [exact Hin |]].
  exact (initial_rows_in_port [vessel_C; vessel_D] Hwin vessel_D Hin).
Defined.

(** ** The initial deadweight *)

Lemma deadweight_present_total (start : datetime) (proc : list vessel) :
  deadweight_present_at start proc
  = total (map (fun r => fillna0 (DWT r))
               (present_at_start (proc_valid proc) start)).
Proof.
  unfold present_at_start, proc_valid.
  induction proc as [|r proc IH]; [reflexivity |].
  simpl filter at 2. simpl deadweight_present_at.
  destruct (arrival_dt r) as [a|] eqn:Ha, (departure_dt r) as [d|] eqn:Hd; simpl.
  - rewrite Ha, Hd. simpl.
    destruct ((a <? start)%Z && (start <? d)%Z); simpl.
    + rewrite total_cons, IH. reflexivity.
    + rewrite IH. reflexivity.
  - rewrite IH. reflexivity.
  - rewrite IH. reflexivity.
  - rewrite IH. reflexivity.
Qed.

(** C6, the claim as stated fails: [vessel_H1] and [vessel_H2] are in port
    at the start of the window with 2^62 t each, both on record. Their
    deadweights add up to 2^63, and the sum of the column of 64-bit
    integers wraps round to -2^63. *)
Lemma initial_dwt_wraps :
  proc_valid [vessel_H1; vessel_H2] = [vessel_H1; vessel_H2]
  /\ present_at_start (proc_valid [vessel_H1; vessel_H2]) w_start
     = [vessel_H1; vessel_H2]
  /\ deadweight_present_at w_start [vessel_H1; vessel_H2]
     = 9223372036854775808%Z
  /\ initial_dwt (proc_valid [vessel_H1; vessel_H2]) w_start
     = (- 9223372036854775808)%Z.
Proof. vm_compute. repeat split; reflexivity. Qed.

(** C6, amended. When the deadweights of the valid records with
    [arrival < start] and [departure > start] are whole numbers whose
    absolute values add up to at most 2^53, [initial_dwt] is their sum, a
    missing deadweight counting as 0. For every record set, when no valid
    record has [arrival < start] and [departure > start], [initial_dwt]
    is 0. *)
Theorem initial_dwt_sum :
  forall (proc : list vessel) (current_dt : datetime),
    ((tonnage (present_at_start (proc_valid proc) current_dt)
      <= exact_limit)%Z ->
     initial_dwt (proc_valid proc) current_dt
     = deadweight_present_at current_dt proc)
    /\ ((forall r a d, In r proc ->
                       arrival_dt r = Some a -> departure_dt r = Some d ->
                       ~ ((a < current_dt)%Z /\ (d > current_dt)%Z)) ->
        initial_dwt (proc_valid proc) current_dt = 0%Z).
Proof.
  intros proc current_dt. split.
  - intros Hb. unfold initial_dwt.
    rewrite (sum_dwt_exact _ Hb). symmetry. apply deadweight_present_total.
  - intros Hnone. unfold initial_dwt.
    assert (Hempty : present_at_start (proc_valid proc) current_dt = []).
    { destruct (present_at_start (proc_valid proc) current_dt) as [|r l] eqn:E;
        [reflexivity | exfalso].
      assert (Hin : In r (present_at_start (proc_valid proc) current_dt))
        by (rewrite E; left; reflexivity).
      unfold present_at_start in Hin.
      rewrite filter_In, andb_true_iff, col_lt_spec, col_gt_spec, proc_valid_In
        in Hin.
      destruct Hin as [[Hin _] [[a [Ha Hlt]] [d [Hd Hgt]]]].
      exact (Hnone r a d Hin Ha Hd (conj Hlt Hgt)). }
    rewrite Hempty. reflexivity.
Qed.

Lemma initial_dwt_sum_witness :
  (tonnage (present_at_start (proc_valid [vessel_A; vessel_B; vessel_D]) w_start)
   <= exact_limit)%Z
  /\ initial_dwt (proc_valid [vessel_A; vessel_B; vessel_D]) w_start
     = deadweight_present_at w_start [vessel_A; vessel_B; vessel_D]
  /\ deadweight_present_at w_start [vessel_A; vessel_B; vessel_D] = 92000%Z
  /\ initial_dwt (proc_valid [vessel_C; vessel_E]) w_start = 0%Z.
Proof.
  assert (Hb : (tonnage (present_at_start
                           (proc_valid [vessel_A; vessel_B; vessel_D]) w_start)
                <= exact_limit)%Z) by (vm_compute; discriminate).
  split; [exact Hb | split; [| split]].
  - exact (proj1 (initial_dwt_sum [vessel_A; vessel_B; vessel_D] w_start) Hb).
  - vm_compute. reflexivity.
  - apply (proj2 (initial_dwt_sum [vessel_C; vessel_E] w_start)).
    intros r a d [<- | [<- | []]] Ha Hd;
      vm_compute in Ha, Hd; injection Ha as <-; injection Hd as <-;
      intros [H1 H2]; vm_compute in H1, H2; congruence.
Defined.

(** ** The event list of the cumulative series *)

Lemma row_events_In (row : vessel) (current_dt end_dt : datetime) (e : event) :
  In e (row_events row current_dt end_dt) <->
  exists w, DWT row = Some w /\
    ((exists a, arrival_dt row = Some a /\ (current_dt <= a <= end_dt)%Z /\
                e = mkEvent a w Arrival (SHIP row))
     \/
     (exists d, departure_dt row = Some d /\ (current_dt <= d <= end_dt)%Z /\
                e = mkEvent d w Departure (SHIP row))).
Proof.
  unfold row_events. destruct (DWT row) as [w|].
  2: { split; [intros [] | intros [w [Hw _]]; discriminate]. }
  rewrite in_app_iff. split.
  - intros [Harr | Hdep]; exists w; (split; [reflexivity |]).
    + left. destruct (arrival_dt row) as [a|]; [| destruct Harr].
      destruct (within (Some a) current_dt end_dt) eqn:Hw; [| destruct Harr].
      apply within_spec in Hw. destruct Hw as [a' [Ha' Hrange]].
      injection Ha' as <-. destruct Harr as [<- | []].
      exists a. auto.
    + right. destruct (departure_dt row) as [d|]; [| destruct Hdep].
      destruct (within (Some d) current_dt end_dt) eqn:Hw; [| destruct Hdep].
      apply within_spec in Hw. destruct Hw as [d' [Hd' Hrange]].
      injection Hd' as <-. destruct Hdep as [<- | []].
      exists d. auto.
  - intros [w' [Hw' [[a [Ha [Hrange He]]] | [d [Hd [Hrange He]]]]]];
      injection Hw' as <-; subst e.
    + left. rewrite Ha.
      assert (Hw : within (Some a) current_dt end_dt = true)
        by (apply within_spec; exists a; auto).
      rewrite Hw. left. reflexivity.
    + right. rewrite Hd.
      assert (Hw : within (Some d) current_dt end_dt = true)
        by (apply within_spec; exists d; auto).
      rewrite Hw. left. reflexivity.
Qed.

Lemma row_events_length (row : vessel) (current_dt end_dt : datetime) :
  List.length (row_events row current_dt end_dt)
  = (Nat.b2n (notna (DWT row) && within (arrival_dt row) current_dt end_dt)
     + Nat.b2n (notna (DWT row) && within (departure_dt row) current_dt end_dt))%nat.
Proof.
  unfold row_events. destruct (DWT row) as [w|]; [| reflexivity].
  rewrite length_app. simpl notna. rewrite !andb_true_l. f_equal.
  - destruct (arrival_dt row) as [a|]; [| reflexivity].
    destruct (within (Some a) current_dt end_dt); reflexivity.
  - destruct (departure_dt row) as [d|]; [| reflexivity].
    destruct (within (Some d) current_dt end_dt); reflexivity.
Qed.

Lemma filter_length_cons {A : Type} (f : A -> bool) (x : A) (l : list A) :
  List.length (filter f (x :: l)) = (Nat.b2n (f x) + List.length (filter f l))%nat.
Proof. simpl. destruct (f x); reflexivity. Qed.

(** C2, the claim as stated fails: [vessel_B] is a valid record that
    arrives and departs inside the window and has no deadweight on record,
    and the event list holds no event for it. *)
Lemma dwt_timeline_skips_missing_deadweight :
  proc_valid [vessel_B] = [vessel_B]
  /\ DWT vessel_B = None
  /\ within (arrival_dt vessel_B) w_start w_end = true
  /\ within (departure_dt vessel_B) w_start w_end = true
  /\ dwt_timeline (proc_valid [vessel_B]) w_start w_end = [].
Proof. vm_compute. repeat split; reflexivity. Qed.

(** C2, amended. The event list holds exactly: for every valid record whose
    deadweight is on record, an Arrival event (its arrival, its deadweight)
    when [start <= arrival <= end] and a Departure event when
    [start <= departure <= end]. A record whose deadweight is missing
    contributes no event. An Arrival event changes the series by
    [+deadweight], a Departure event by [-deadweight]. *)
Theorem dwt_timeline_events :
  forall (proc : list vessel) (current_dt end_dt : datetime),
    (forall e : event,
        In e (dwt_timeline (proc_valid proc) current_dt end_dt) <->
        exists r w, In r (proc_valid proc) /\ DWT r = Some w /\
          ((exists a, arrival_dt r = Some a /\ (current_dt <= a <= end_dt)%Z /\
                      e = mkEvent a w Arrival (SHIP r))
           \/
           (exists d, departure_dt r = Some d /\ (current_dt <= d <= end_dt)%Z /\
                      e = mkEvent d w Departure (SHIP r))))
    /\ (forall r : vessel, DWT r = None -> row_events r current_dt end_dt = [])
    /\ (forall e : event,
           In e (dwt_timeline (proc_valid proc) current_dt end_dt) ->
           (ev_Type e = Arrival /\ DWT_Change e = ev_DWT e)
           \/ (ev_Type e = Departure /\ DWT_Change e = (- ev_DWT e)%Z))
    /\ List.length (dwt_timeline (proc_valid proc) current_dt end_dt)
       = (List.length
            (filter (fun r => notna (DWT r)
                              && within (arrival_dt r) current_dt end_dt)
                    (proc_valid proc))
          + List.length
              (filter (fun r => notna (DWT r)
                                && within (departure_dt r) current_dt end_dt)
                      (proc_valid proc)))%nat.
Proof.
  intros proc current_dt end_dt.
  assert (Hmem : forall e : event,
             In e (dwt_timeline (proc_valid proc) current_dt end_dt) <->
             exists r w, In r (proc_valid proc) /\ DWT r = Some w /\
               ((exists a, arrival_dt r = Some a /\
                           (current_dt <= a <= end_dt)%Z /\
                           e = mkEvent a w Arrival (SHIP r))
                \/
                (exists d, departure_dt r = Some d /\
                           (current_dt <= d <= end_dt)%Z /\
                           e = mkEvent d w Departure (SHIP r)))).
  { intros e. unfold dwt_timeline. rewrite in_flat_map. split.
    - intros [r [Hin He]]. apply row_events_In in He.
      destruct He as [w [Hw Hcases]]. exists r, w. auto.
    - intros [r [w [Hin [Hw Hcases]]]]. exists r. split; [exact Hin |].
      apply row_events_In. exists w. auto. }
  split; [exact Hmem | split; [| split]].
  - intros r Hr. unfold row_events. rewrite Hr. reflexivity.
  - intros e He. apply Hmem in He.
    destruct He as [r [w [_ [_ [[a [_ [_ ->]]] | [d [_ [_ ->]]]]]]]].
    + left. split; reflexivity.
    + right. split; reflexivity.
  - clear Hmem. unfold dwt_timeline.
    induction (proc_valid proc) as [|r l IH]; [reflexivity |].
    simpl flat_map. rewrite length_app, row_events_length, IH.
    rewrite !filter_length_cons. lia.
Qed.

(** C3, the claim as stated fails: with [vessel_C] alone, gone before the
    window opens, no event falls in the window and [initial_dwt] is 0, and
    the dashboard emits no series. *)
Lemma dwt_plot_none_without_events :
  proc_valid [vessel_C] = [vessel_C]
  /\ dwt_timeline (proc_valid [vessel_C]) w_start w_end = []
  /\ initial_dwt (proc_valid [vessel_C]) w_start = 0%Z
  /\ dwt_plot (proc_valid [vessel_C]) w_start w_end = None.
Proof. vm_compute. repeat split; reflexivity. Qed.

(** C3, amended. When no event falls in the window, the series is the flat
    two-point series ([initial_dwt] at the window start and at the window
    end) if [initial_dwt] is positive, and no series is emitted if
    [initial_dwt] is 0 or less. *)
Theorem dwt_plot_flat :
  forall (proc : list vessel) (current_dt end_dt : datetime),
    dwt_timeline (proc_valid proc) current_dt end_dt = [] ->
    ((0 < initial_dwt (proc_valid proc) current_dt)%Z ->
     dwt_plot (proc_valid proc) current_dt end_dt
     = Some [ mkPoint current_dt (initial_dwt (proc_valid proc) current_dt) Initial;
              mkPoint end_dt (initial_dwt (proc_valid proc) current_dt) Final ])
    /\ ((initial_dwt (proc_valid proc) current_dt <= 0)%Z ->
        dwt_plot (proc_valid proc) current_dt end_dt = None).
Proof.
  intros proc current_dt end_dt Hnone. unfold dwt_plot. rewrite Hnone. simpl.
  split; intros Hsign.
  - apply Z.ltb_lt in Hsign. rewrite Hsign. reflexivity.
  - destruct (Z.ltb_spec 0 (initial_dwt (proc_valid proc) current_dt)) as [Hlt|_];
      [lia | reflexivity].
Qed.

Lemma dwt_plot_flat_witness :
  dwt_timeline (proc_valid [vessel_C; vessel_D]) w_start w_end = []
  /\ dwt_plot (proc_valid [vessel_C; vessel_D]) w_start w_end
     = Some [ mkPoint w_start 42000%Z Initial; mkPoint w_end 42000%Z Final ].
Proof.
  assert (Hnone : dwt_timeline (proc_valid [vessel_C; vessel_D]) w_start w_end = [])
    by (vm_compute; reflexivity).
  split; [exact Hnone |].
  apply (proj1 (dwt_plot_flat [vessel_C; vessel_D] w_start w_end Hnone)).
  vm_compute. reflexivity.
Defined.

(** ** The lookahead filter against the In-Port classifier *)

Lemma filter_of_filter {A : Type} (f g v : A -> bool) (l : list A) :
  (forall x, In x l -> f x = v x && g x) ->
  filter f l = filter g (filter v l).
Proof.
  induction l as [|x l IH]; intros Hext; [reflexivity |].
  simpl. rewrite (Hext x (or_introl eq_refl)).
  assert (IH' : filter f l = filter g (filter v l))
    by (apply IH; intros y Hy; apply Hext; right; exact Hy).
  destruct (v x); simpl; [destruct (g x) |]; rewrite IH'; reflexivity.
Qed.

(** C4, the claim as stated fails: [vessel_E] leaves exactly at the
    reference instant. The lookahead filter selects it, and the In-Port
    classifier on the window from that instant to 24 hours later does not. *)
Lemma lookahead_differs_from_in_port :
  departure_dt vessel_E = Some w_start
  /\ proc_valid [vessel_E] = [vessel_E]
  /\ activos [vessel_E] w_start 24 = [vessel_E]
  /\ in_port (proc_valid [vessel_E]) w_start (w_start + Timedelta_hours 24) = [].
Proof. vm_compute. repeat split; reflexivity. Qed.

(** C4, amended. Every record the In-Port classifier selects on the window
    [[t, t + L]] is selected by the lookahead filter at [t]; the lookahead
    filter selects besides exactly the records that touch a bound of the
    window (arrival at [t + L], or departure at [t]); and the two select
    the same records, in the same order, when no record of the frame
    arrives at [t + L] or departs at [t]. *)
Theorem lookahead_contains_in_port :
  forall (df : list vessel) (tiempo_actual : datetime) (lookahead_h : Z),
    let fin_ventana := (tiempo_actual + Timedelta_hours lookahead_h)%Z in
    (forall r : vessel,
        In r (in_port (proc_valid df) tiempo_actual fin_ventana) ->
        In r (activos df tiempo_actual lookahead_h))
    /\ (forall r : vessel,
           In r (activos df tiempo_actual lookahead_h) <->
           In r (in_port (proc_valid df) tiempo_actual fin_ventana)
           \/ (In r df /\
               exists a d, arrival_dt r = Some a /\ departure_dt r = Some d /\
                           (a <= fin_ventana)%Z /\ (tiempo_actual <= d)%Z /\
                           (a = fin_ventana \/ d = tiempo_actual)))
    /\ ((forall r : vessel,
            In r df ->
            arrival_dt r <> Some fin_ventana
            /\ departure_dt r <> Some tiempo_actual) ->
        activos df tiempo_actual lookahead_h
        = in_port (proc_valid df) tiempo_actual fin_ventana).
Proof.
  intros df t L fin.
  assert (Hact : forall r, In r (activos df t L) <->
                           In r df /\
                           exists a d, arrival_dt r = Some a /\
                                       departure_dt r = Some d /\
                                       (a <= fin)%Z /\ (t <= d)%Z).
  { intros r. unfold activos. fold fin.
    rewrite filter_In, andb_true_iff, col_le_spec, col_ge_spec. split.
    - intros [Hin [[a [Ha Hle]] [d [Hd Hge]]]].
      split; [exact Hin | exists a, d; auto].
    - intros [Hin [a [d [Ha [Hd [Hle Hge]]]]]].
      split; [exact Hin | split; [exists a | exists d]; auto]. }
  assert (Hport : forall r, In r (in_port (proc_valid df) t fin) <->
                            In r df /\
                            exists a d, arrival_dt r = Some a /\
                                        departure_dt r = Some d /\
                                        (a < fin)%Z /\ (d > t)%Z)
    by (intros r; apply in_port_In).
  split; [| split].
  - intros r Hr. apply Hact. apply Hport in Hr.
    destruct Hr as [Hin [a [d [Ha [Hd [Hlt Hgt]]]]]].
    split; [exact Hin | exists a, d; repeat split; auto; lia].
  - intros r. rewrite Hact, Hport. split.
    + intros [Hin [a [d [Ha [Hd [Hle Hge]]]]]].
      destruct (Z.eq_dec a fin) as [Hafin | Hafin];
        [right; split; [exact Hin | exists a, d; repeat split; auto] |].
      destruct (Z.eq_dec d t) as [Hdt | Hdt];
        [right; split; [exact Hin | exists a, d; repeat split; auto] |].
      left. split; [exact Hin | exists a, d; repeat split; auto; lia].
    + intros [[Hin [a [d [Ha [Hd [Hlt Hgt]]]]]]
             | [Hin [a [d [Ha [Hd [Hle [Hge _]]]]]]]];
        (split; [exact Hin | exists a, d; repeat split; auto; lia]).
  - intros Hclear. unfold activos, in_port, proc_valid. fold fin.
    apply filter_of_filter. intros r Hin.
    destruct (Hclear r Hin) as [Harr Hdep].
    destruct (arrival_dt r) as [a|], (departure_dt r) as [d|]; simpl;
      try reflexivity.
    + assert (Ha : a <> fin) by (intros E; apply Harr; rewrite E; reflexivity).
      assert (Hd : d <> t) by (intros E; apply Hdep; rewrite E; reflexivity).
      destruct (Z.leb_spec a fin), (Z.ltb_spec a fin),
               (Z.leb_spec t d), (Z.ltb_spec t d); simpl; try reflexivity; lia.
    + rewrite andb_false_r. reflexivity.
Qed.

Lemma lookahead_contains_in_port_witness :
  activos [vessel_A; vessel_B; vessel_C] w_start 24
  = in_port (proc_valid [vessel_A; vessel_B; vessel_C])
            w_start (w_start + Timedelta_hours 24).
Proof.
  apply (proj2 (proj2 (lookahead_contains_in_port
                         [vessel_A; vessel_B; vessel_C] w_start 24))).
  intros r [<- | [<- | [<- | []]]]; vm_compute; split; congruence.
Defined.

(** ** Truncation of the fractional seconds *)

Lemma prefix_dot (c : ascii) (t : string) :
  prefix "." (String c t) = Ascii.eqb c ".".
Proof.
  assert (E : prefix "." (String c t)
              = if ascii_dec "." c then prefix "" t else false)
    by (with_strategy transparent [prefix] reflexivity).
  rewrite E. destruct (ascii_dec "." c) as [<- | Hne].
  - with_strategy transparent [prefix] (destruct t; reflexivity).
  - symmetry. apply Ascii.eqb_neq. congruence.
Qed.

Lemma index_dot_cons (c : ascii) (t : string) :
  String.index 0 "." (String c t)
  = if Ascii.eqb c "." then Some 0%nat
    else option_map S (String.index 0 "." t).
Proof.
  change (String.index 0 "." (String c t))
    with (if prefix "." (String c t) then Some 0%nat
          else match String.index 0 "." t with
               | Some n => Some (S n)
               | None => None
               end).
  rewrite prefix_dot.
  destruct (Ascii.eqb c "."); [reflexivity |].
  destruct (String.index 0 "." t); reflexivity.
Qed.

Lemma split_dot_0_truncate (s : string) :
  (if contains_dot s then split_dot_0 s else s) = truncate_fraction s.
Proof.
  unfold truncate_fraction.
  induction s as [|c t IH]; [reflexivity |].
  rewrite index_dot_cons. simpl contains_dot. simpl split_dot_0.
  destruct (Ascii.eqb c ".") eqn:Hc; simpl; [reflexivity |].
  destruct (String.index 0 "." t) as [n|]; simpl;
    destruct (contains_dot t); congruence.
Qed.

Lemma split_dot_0_app (pre suf : string) :
  contains_dot pre = false ->
  split_dot_0 (pre ++ String "." suf) = pre.
Proof.
  induction pre as [|c t IH]; simpl; intros Hpre; [reflexivity |].
  apply orb_false_iff in Hpre. destruct Hpre as [Hc Ht].
  rewrite Hc, (IH Ht). reflexivity.
Qed.

Lemma contains_dot_app (pre suf : string) :
  contains_dot (pre ++ String "." suf) = true.
Proof.
  induction pre as [|c t IH]; simpl; [reflexivity |].
  rewrite IH. apply orb_true_r.
Qed.

(** ** The row parser *)

Section ParserProperties.

Variable to_datetime_dayfirst : string -> exc (option datetime).
Variable to_datetime_HMS : string -> exc (option datetime).

Local Abbreviation parse := (parse_datetime_from_row to_datetime_dayfirst to_datetime_HMS).
Local Abbreviation date_part := (date_part_of to_datetime_dayfirst).
Local Abbreviation time_part := (time_part_of to_datetime_HMS).

(** C9. The time part of a text cell is what the format [%H:%M:%S] reads in
    the stripped text cut at its first ['.']: the text from the first ['.']
    on is dropped before parsing, and a text with no ['.'] is parsed whole.
    The cell ["14:30:45.500"] is parsed as ["14:30:45"] is, which the
    reference reading of the format reads as the time 14:30:45. *)
Theorem time_text_truncates_fraction :
  (forall s : string,
      time_part (Other s)
      = (ts <- to_datetime_HMS (truncate_fraction (strip s)) ;;
         Val (option_map time_of ts)))
  /\ (forall s pre suf : string,
         strip s = (pre ++ String "." suf)%string ->
         contains_dot pre = false ->
         time_part (Other s)
         = (ts <- to_datetime_HMS pre ;; Val (option_map time_of ts)))
  /\ (forall s : string,
         contains_dot (strip s) = false ->
         time_part (Other s)
         = (ts <- to_datetime_HMS (strip s) ;; Val (option_map time_of ts)))
  /\ time_part (Other "14:30:45.500")
     = (ts <- to_datetime_HMS "14:30:45" ;; Val (option_map time_of ts))
  /\ time_part_of ref_to_datetime_HMS (Other "14:30:45.500")
     = Val (Some (hms 14 30 45))
  /\ parse_datetime_from_row ref_to_datetime_dayfirst ref_to_datetime_HMS
                             (Other "13/10/2025") (Other "14:30:45.500")
     = Val (Some (ymd_hms 2025 10 13 14 30 45)).
Proof.
  split; [| split; [| split; [| split; [| split]]]].
  - intros s. simpl. unfold time_of_text.
    rewrite split_dot_0_truncate. reflexivity.
  - intros s pre suf Hs Hpre. simpl. unfold time_of_text.
    rewrite Hs, contains_dot_app, split_dot_0_app by exact Hpre. reflexivity.
  - intros s Hs. simpl. unfold time_of_text. rewrite Hs. reflexivity.
  - reflexivity.
  - vm_compute. reflexivity.
  - vm_compute. reflexivity.
Qed.


(** ** The window check *)

(** In terms of the two dates the user picks, the window is refused exactly
    when the end date is before the start date: a window of one same day
    runs from 00:00:00 to 23:59:59.999999 and is accepted. *)
Lemma window_refused_iff (start_date end_date : date) :
  (datetime_combine end_date time_max <= datetime_combine start_date time_min)%Z
  <-> (end_date < start_date)%Z.
Proof.
  unfold datetime_combine, time_max, time_min, us_per_day. lia.
Qed.

(** C8. When the end of the window is not after its start, the run stops
    with the configuration error: whatever the sheet, the dashboard renders
    nothing (no subset, no per-berth summary, no series). *)
Theorem end_not_after_start_halts :
  forall (df : DataFrame) (start_date end_date : date),
    (datetime_combine end_date time_max
     <= datetime_combine start_date time_min)%Z ->
    dashboard to_datetime_dayfirst to_datetime_HMS
              (Some (Val df)) start_date end_date
    = Stopped ConfigError
    /\ forall (uploaded : option (exc DataFrame)) (res : results),
        dashboard to_datetime_dayfirst to_datetime_HMS
                  uploaded start_date end_date
        <> Rendered res.
Proof.
  intros df start_date end_date Hwin.
  apply Z.leb_le in Hwin.
  split.
  - unfold dashboard. rewrite Hwin. reflexivity.
  - intros uploaded res. unfold dashboard.
    destruct uploaded as [[df'|]|]; try discriminate.
    rewrite Hwin. discriminate.
Qed.

End ParserProperties.

(** ** The theorems at the example data *)

Lemma time_text_truncates_fraction_witness :
  strip " 10:00:00.250 " = ("10:00:00" ++ String "." "250")%string
  /\ contains_dot "10:00:00" = false
  /\ time_part_of ref_to_datetime_HMS (Other " 10:00:00.250 ")
     = Val (Some (hms 10 0 0)).
Proof.
  assert (Hs : strip " 10:00:00.250 " = ("10:00:00" ++ String "." "250")%string)
    by reflexivity.
  assert (Hpre : contains_dot "10:00:00" = false) by reflexivity.
  split; [exact Hs | split; [exact Hpre |]].
  rewrite (proj1 (proj2 (time_text_truncates_fraction ref_to_datetime_HMS))
             " 10:00:00.250 " "10:00:00" "250" Hs Hpre).
  vm_compute. reflexivity.
Defined.


Lemma end_not_after_start_halts_witness :
  (datetime_combine start_2025_10_13 time_max
   <= datetime_combine end_2025_10_20 time_min)%Z
  /\ dashboard ref_to_datetime_dayfirst ref_to_datetime_HMS
               (Some (Val sheet)) end_2025_10_20 start_2025_10_13
     = Stopped ConfigError.
Proof.
  assert (Hwin : (datetime_combine start_2025_10_13 time_max
                  <= datetime_combine end_2025_10_20 time_min)%Z)
    by (vm_compute; discriminate).
  split; [exact Hwin |].
  exact (proj1 (end_not_after_start_halts
                  ref_to_datetime_dayfirst ref_to_datetime_HMS
                  sheet end_2025_10_20 start_2025_10_13 Hwin)).
Defined.

(** * Further properties of the code *)

(** ** Column detection (app.py, lines 31-35) *)

Lemma existsb_eqb_In (c : string) (cols : list string) :
  existsb (String.eqb c) cols = true <-> In c cols.
Proof.
  rewrite existsb_exists. split.
  - intros [x [Hx Heq]]. apply String.eqb_eq in Heq. subst x. exact Hx.
  - intros Hin. exists c. split; [exact Hin | apply String.eqb_refl].
Qed.

(** X1. [try_get_col] returns the first candidate, in the order of the
    candidate list, that is a column of the frame, and [None] exactly when
    no candidate is a column. *)
Theorem try_get_col_first_match :
  forall (df : DataFrame) (candidates : list string),
    (forall c : string,
        try_get_col df candidates = Some c <->
        exists pre post,
          candidates = (pre ++ c :: post)%list
          /\ In c (columns df)
          /\ forall x, In x pre -> ~ In x (columns df))
    /\ (try_get_col df candidates = None <->
        forall x, In x candidates -> ~ In x (columns df)).
Proof.
  intros df candidates. unfold try_get_col.
  induction candidates as [|k l [IHsome IHnone]]; simpl.
  - split.
    + intros c. split; [discriminate |].
      intros [pre [post [Heq _]]]. destruct pre; discriminate.
    + split; [intros _ x [] | reflexivity].
  - destruct (existsb (String.eqb k) (columns df)) eqn:Hk.
    + apply existsb_eqb_In in Hk. split.
      * intros c. split.
        -- intros Hc. injection Hc as <-. exists [], l. simpl. auto.
        -- intros [pre [post [Heq [Hin Hpre]]]].
           destruct pre as [|p pre]; simpl in Heq; injection Heq as -> ->.
           ++ reflexivity.
           ++ exfalso. apply (Hpre p); [left; reflexivity | exact Hk].
      * split; [discriminate |].
        intros Hall. exfalso. apply (Hall k); [left; reflexivity | exact Hk].
    + assert (Hnk : ~ In k (columns df)).
      { intros Hin. apply existsb_eqb_In in Hin. congruence. }
      split.
      * intros c. rewrite IHsome. split.
        -- intros [pre [post [-> [Hin Hpre]]]].
           exists (k :: pre), post. simpl. repeat split; auto.
           intros x [<- | Hx]; auto.
        -- intros [pre [post [Heq [Hin Hpre]]]].
           destruct pre as [|p pre]; simpl in Heq; injection Heq as -> ->.
           ++ contradiction.
           ++ exists pre, post. repeat split; auto.
              intros x Hx. apply Hpre. right. exact Hx.
      * rewrite IHnone. split.
        -- intros Hall x [<- | Hx]; auto.
        -- intros Hall x Hx. apply Hall. right. exact Hx.
Qed.

(** ** The window (app.py, lines 89-97) *)

Lemma combine_parts_of (ts : datetime) :
  datetime_combine (date_of ts) (time_of ts) = ts.
Proof.
  unfold datetime_combine, date_of, time_of.
  pose proof (Z.div_mod ts us_per_day) as H.
  unfold us_per_day in *. lia.
Qed.

Lemma date_of_combine (d : date) (t : time) :
  (0 <= t < us_per_day)%Z -> date_of (datetime_combine d t) = d.
Proof.
  intros Ht. unfold date_of, datetime_combine.
  rewrite Z.add_comm, Z.div_add by (unfold us_per_day; lia).
  rewrite Z.div_small by exact Ht. reflexivity.
Qed.

Lemma time_of_combine (d : date) (t : time) :
  (0 <= t < us_per_day)%Z -> time_of (datetime_combine d t) = t.
Proof.
  intros Ht. unfold time_of, datetime_combine.
  rewrite Z.add_comm, Z.mod_add by (unfold us_per_day; lia).
  apply Z.mod_small. exact Ht.
Qed.

(** X2. The duration shown in the sidebar is the difference of the two
    dates picked, [end_date - start_date]: a window of one same day shows
    0 days and the default window of eight calendar days shows 7. It is
    never negative in a window the dashboard accepts. *)
Theorem analysis_days_of_dates :
  forall start_date end_date : date,
    let current_dt := datetime_combine start_date time_min in
    let end_dt := datetime_combine end_date time_max in
    analysis_days current_dt end_dt = (end_date - start_date)%Z
    /\ ((end_dt <=? current_dt)%Z = false ->
        (0 <= analysis_days current_dt end_dt)%Z).
Proof.
  intros start_date end_date current_dt end_dt.
  assert (Hdays : analysis_days current_dt end_dt = (end_date - start_date)%Z).
  { unfold analysis_days, current_dt, end_dt, datetime_combine, time_min, time_max.
    replace (end_date * us_per_day + (us_per_day - 1) - (start_date * us_per_day + 0))%Z
      with ((us_per_day - 1) + (end_date - start_date) * us_per_day)%Z by lia.
    rewrite Z.div_add by (unfold us_per_day; lia).
    rewrite Z.div_small by (unfold us_per_day; lia). lia. }
  split; [exact Hdays |].
  intros Hok. rewrite Hdays. apply Z.leb_gt in Hok.
  unfold current_dt, end_dt, datetime_combine, time_min, time_max, us_per_day in Hok.
  lia.
Qed.

(** ** The processing loop and the run of the dashboard *)

Lemma missing_nil (c : detected) :
  missing c = [] <->
  (exists s, col_ship c = Some s) /\ (exists s, col_arr_day c = Some s)
  /\ (exists s, col_arr_time c = Some s) /\ (exists s, col_dep_day c = Some s)
  /\ (exists s, col_dep_time c = Some s).
Proof.
  unfold missing, if_none.
  destruct (col_ship c), (col_arr_day c), (col_arr_time c),
           (col_dep_day c), (col_dep_time c); simpl; split.
  all: try discriminate.
  all: try (intros _; repeat split; eexists; reflexivity).
  all: try reflexivity.
  all: intros [[? H1] [[? H2] [[? H3] [[? H4] [? H5]]]]]; discriminate.
Qed.

Section RunProperties.

Variable to_datetime_dayfirst : string -> exc (option datetime).
Variable to_datetime_HMS : string -> exc (option datetime).

Local Abbreviation parse :=
  (parse_datetime_from_row to_datetime_dayfirst to_datetime_HMS).
Local Abbreviation run := (dashboard to_datetime_dayfirst to_datetime_HMS).
Local Abbreviation process_row' :=
  (process_row to_datetime_dayfirst to_datetime_HMS).
Local Abbreviation process' := (process to_datetime_dayfirst to_datetime_HMS).
Local Abbreviation process_from' :=
  (process_from to_datetime_dayfirst to_datetime_HMS).
Local Abbreviation parsed := (parsed to_datetime_dayfirst to_datetime_HMS).
Local Abbreviation record_of :=
  (record_of to_datetime_dayfirst to_datetime_HMS).

Lemma parse_parsed (date_val time_val : cell) :
  parse date_val time_val = Val (parsed date_val time_val).
Proof.
  unfold parsed, parse_datetime_from_row.
  destruct (isna date_val || isna time_val); [reflexivity |].
  destruct (date_part_of to_datetime_dayfirst date_val) as [[d|]|]; simpl;
    try reflexivity;
    destruct (time_part_of to_datetime_HMS time_val) as [[t|]|]; reflexivity.
Qed.

Lemma process_row_detected (c : detected) (i : nat) (row : sheet_row) :
  missing c = [] -> process_row' c i row = Val (record_of c row).
Proof.
  intros Hc. apply missing_nil in Hc.
  destruct Hc as [[s0 H0] [[s1 H1] [[s2 H2] [[s3 H3] [s4 H4]]]]].
  unfold process_row, record_of. rewrite H0, H1, H2, H3, H4. simpl.
  rewrite !parse_parsed. reflexivity.
Qed.

Lemma process_from_map (c : detected) (i : nat) (rows : list sheet_row) :
  missing c = [] -> process_from' c i rows = map (record_of c) rows.
Proof.
  intros Hc. revert i. induction rows as [|row rest IH]; intros i; simpl.
  - reflexivity.
  - rewrite (@process_row_detected c i row Hc), IH. reflexivity.
Qed.

(** X3. Once the five required columns are detected, the loop skips no
    row: the processed frame has one record per row of the sheet, in the
    order of the sheet, whose timestamps are what the parser returns on the
    row's cells and whose name is the row's; a row that does not parse is
    kept, with a missing timestamp. *)
Theorem process_one_record_per_row :
  forall (c : detected) (df : DataFrame),
    missing c = [] ->
    List.length (process' c df) = List.length (index df)
    /\ forall (i : nat) (row : sheet_row),
        nth_error (index df) i = Some row ->
        exists v,
          nth_error (process' c df) i = Some v
          /\ parse (x_arr_day row) (x_arr_time row) = Val (arrival_dt v)
          /\ parse (x_dep_day row) (x_dep_time row) = Val (departure_dt v)
          /\ SHIP v = x_ship row
          /\ Berth v = loc_or (col_berth c) (x_berth row) None
          /\ DockingTime v = loc_or (col_docking c) (x_docking row) None
          /\ DWT v = loc_or (col_dwt c) (x_dwt row) None.
Proof.
  intros c df Hc. unfold process. rewrite (@process_from_map c 0%nat (index df) Hc).
  split; [apply length_map |].
  intros i row Hrow. exists (record_of c row).
  split; [apply map_nth_error; exact Hrow |].
  simpl. rewrite !parse_parsed. repeat split; reflexivity.
Qed.

(** X4. The run of the dashboard on a loaded sheet has exactly four
    outcomes, checked in this order: the configuration error when the end
    date is before the start date; else the list of the missing required
    columns when there is one; else "no valid data" when no row has both
    timestamps parsed; else the rendered results. It renders exactly when
    the end date is not before the start date, the five required columns
    are detected and some row has both its arrival and its departure
    parsed. *)
Theorem dashboard_outcomes :
  forall (df : DataFrame) (start_date end_date : date),
    let some_row_parses :=
      exists row a d,
        In row (index df)
        /\ parse (x_arr_day row) (x_arr_time row) = Val (Some a)
        /\ parse (x_dep_day row) (x_dep_time row) = Val (Some d) in
    ((end_date < start_date)%Z ->
     run (Some (Val df)) start_date end_date = Stopped ConfigError)
    /\ ((start_date <= end_date)%Z -> missing (detect df) <> [] ->
        run (Some (Val df)) start_date end_date
        = Stopped (MissingColumns (missing (detect df))))
    /\ ((start_date <= end_date)%Z -> missing (detect df) = [] ->
        ~ some_row_parses ->
        run (Some (Val df)) start_date end_date = Stopped NoValidData)
    /\ ((exists res, run (Some (Val df)) start_date end_date = Rendered res) <->
        (start_date <= end_date)%Z /\ missing (detect df) = []
        /\ some_row_parses).
Proof.
  intros df start_date end_date some_row_parses.
  assert (Hwin : (datetime_combine end_date time_max
                  <=? datetime_combine start_date time_min)%Z
                 = (end_date <? start_date)%Z).
  { destruct (Z.ltb_spec end_date start_date) as [H | H].
    - apply Z.leb_le. apply window_refused_iff. exact H.
    - apply Z.leb_gt.
      unfold datetime_combine, time_max, time_min, us_per_day. lia. }
  assert (Hvalid : missing (detect df) = [] ->
                   (is_empty (proc_valid (process' (detect df) df)) = false
                    <-> some_row_parses)).
  { intros Hc. unfold process.
    rewrite (@process_from_map (detect df) 0%nat (index df) Hc). split.
    - intros Hne.
      destruct (proc_valid (map (record_of (detect df)) (index df)))
        as [|v l] eqn:E; [discriminate |].
      assert (Hin : In v (proc_valid (map (record_of (detect df)) (index df))))
        by (rewrite E; left; reflexivity).
      apply proc_valid_In in Hin. destruct Hin as [Hin Hv].
      apply in_map_iff in Hin. destruct Hin as [row [<- Hrow]].
      apply valid_spec in Hv. destruct Hv as [a [d [Ha Hd]]].
      simpl in Ha, Hd. exists row, a, d.
      rewrite !parse_parsed, Ha, Hd. auto.
    - intros [row [a [d [Hrow [Ha Hd]]]]].
      rewrite parse_parsed in Ha, Hd.
      injection Ha as Ha. injection Hd as Hd.
      assert (Hin : In (record_of (detect df) row)
                       (proc_valid (map (record_of (detect df)) (index df)))).
      { apply proc_valid_In. split; [apply in_map; exact Hrow |].
        apply valid_spec. exists a, d. simpl. auto. }
      destruct (proc_valid (map (record_of (detect df)) (index df)));
        [destruct Hin | reflexivity]. }
  unfold dashboard. rewrite Hwin.
  split; [| split; [| split]].
  - intros Hlt. apply Z.ltb_lt in Hlt. rewrite Hlt. reflexivity.
  - intros Hle Hmiss. apply Z.ltb_ge in Hle. rewrite Hle.
    destruct (missing (detect df)); [contradiction | reflexivity].
  - intros Hle Hmiss Hnone. apply Z.ltb_ge in Hle. rewrite Hle, Hmiss. simpl.
    destruct (is_empty (proc_valid (process' (detect df) df))) eqn:E;
      [reflexivity |].
    exfalso. apply Hnone. apply (Hvalid Hmiss). reflexivity.
  - split.
    + intros [res Hres].
      destruct (Z.ltb_spec end_date start_date) as [H | H]; [discriminate |].
      destruct (missing (detect df)) eqn:Hmiss; simpl in Hres; [| discriminate].
      destruct (is_empty (proc_valid (process' (detect df) df))) eqn:E;
        [discriminate |].
      split; [exact H | split; [reflexivity |]].
      apply (Hvalid eq_refl). reflexivity.
    + intros [Hle [Hmiss Hrow]]. apply Z.ltb_ge in Hle.
      rewrite Hle, Hmiss. simpl.
      apply (Hvalid Hmiss) in Hrow. rewrite Hrow. eexists. reflexivity.
Qed.

End RunProperties.

Lemma process_one_record_per_row_witness :
  missing (detect sheet) = []
  /\ List.length (process ref_to_datetime_dayfirst ref_to_datetime_HMS
                          (detect sheet) sheet)
     = List.length (index sheet).
Proof.
  assert (Hc : missing (detect sheet) = []) by reflexivity.
  split; [exact Hc |].
  exact (proj1 (process_one_record_per_row
                  ref_to_datetime_dayfirst ref_to_datetime_HMS
                  (detect sheet) sheet Hc)).
Defined.

(** ** The parser on structured cells and on padded text *)

Lemma lstrip_split (s : string) :
  exists l, s = (l ++ lstrip s)%string /\ all_space l = true.
Proof.
  induction s as [|c t [l [Hl Hsp]]]; simpl.
  - exists EmptyString. auto.
  - destruct (isspace c) eqn:Hc.
    + exists (String c l). simpl. rewrite <- Hl, Hc, Hsp. auto.
    + exists EmptyString. auto.
Qed.

Lemma lstrip_first (s : string) (c : ascii) :
  first_char (lstrip s) = Some c -> isspace c = false.
Proof.
  induction s as [|a t IH]; simpl; [discriminate |].
  destruct (isspace a) eqn:Ha; [exact IH |].
  simpl. intros H. injection H as <-. exact Ha.
Qed.

Lemma lstrip_fixed (s : string) :
  (forall c, first_char s = Some c -> isspace c = false) -> lstrip s = s.
Proof.
  destruct s as [|a t]; simpl; [reflexivity |].
  intros H. rewrite (H a eq_refl). reflexivity.
Qed.

Lemma rstrip_split (s : string) :
  exists r, s = (rstrip s ++ r)%string /\ all_space r = true.
Proof.
  induction s as [|c t [r [Hr Hsp]]]; simpl.
  - exists EmptyString. auto.
  - destruct (rstrip t) as [|c' t'] eqn:E.
    + destruct (isspace c) eqn:Hc.
      * exists (String c t). simpl in Hr. subst r.
        simpl. rewrite Hc, Hsp. auto.
      * exists r. simpl in Hr. subst r. simpl. auto.
    + exists r. split; [| exact Hsp]. simpl. f_equal. exact Hr.
Qed.

Lemma rstrip_last (s : string) (c : ascii) :
  last_char (rstrip s) = Some c -> isspace c = false.
Proof.
  induction s as [|a t IH]; simpl; [discriminate |].
  destruct (rstrip t) as [|c' t'] eqn:E.
  - destruct (isspace a) eqn:Ha; simpl; [discriminate |].
    intros H. injection H as <-. exact Ha.
  - exact IH.
Qed.

Lemma rstrip_first (s : string) (c : ascii) :
  first_char s = Some c -> isspace c = false ->
  first_char (rstrip s) = Some c.
Proof.
  destruct s as [|a t]; simpl; [discriminate |].
  intros H Hc. injection H as ->.
  destruct (rstrip t); [rewrite Hc |]; reflexivity.
Qed.

Lemma rstrip_idempotent (s : string) : rstrip (rstrip s) = rstrip s.
Proof.
  induction s as [|a t IH]; simpl; [reflexivity |].
  destruct (rstrip t) as [|c' t'] eqn:E.
  - destruct (isspace a) eqn:Ha; simpl; [reflexivity |].
    rewrite Ha. reflexivity.
  - simpl. simpl in IH. rewrite IH. reflexivity.
Qed.

Lemma strip_idempotent (s : string) : strip (strip s) = strip s.
Proof.
  unfold strip.
  assert (Hl : lstrip (rstrip (lstrip s)) = rstrip (lstrip s)).
  { apply lstrip_fixed. intros c Hc.
    destruct (lstrip s) as [|a t] eqn:E; [discriminate |].
    assert (Ha : isspace a = false)
      by (apply (lstrip_first s); rewrite E; reflexivity).
    rewrite (rstrip_first (String a t) eq_refl Ha) in Hc.
    injection Hc as <-. exact Ha. }
  rewrite Hl. apply rstrip_idempotent.
Qed.

(** X5. [strip] removes exactly the white space around a text: the text is
    its stripped form between two runs of white space, the stripped form
    neither begins nor ends with white space, and stripping twice changes
    nothing. *)
Theorem strip_removes_surrounding_space :
  forall s : string,
    (exists l r, s = (l ++ strip s ++ r)%string
                 /\ all_space l = true /\ all_space r = true)
    /\ (forall c, first_char (strip s) = Some c -> isspace c = false)
    /\ (forall c, last_char (strip s) = Some c -> isspace c = false)
    /\ strip (strip s) = strip s.
Proof.
  intros s. split; [| split; [| split]].
  - destruct (lstrip_split s) as [l [Hl Hlsp]].
    destruct (rstrip_split (lstrip s)) as [r [Hr Hrsp]].
    exists l, r. unfold strip. rewrite <- Hr. auto.
  - intros c Hc. rewrite <- strip_idempotent in Hc. unfold strip in Hc at 1.
    destruct (lstrip (strip s)) as [|a t] eqn:E; [discriminate |].
    assert (Ha : isspace a = false)
      by (apply (lstrip_first (strip s)); rewrite E; reflexivity).
    rewrite (rstrip_first (String a t) eq_refl Ha) in Hc.
    injection Hc as <-. exact Ha.
  - intros c. unfold strip. apply rstrip_last.
  - apply strip_idempotent.
Qed.

Section ParserOnCells.

Variable to_datetime_dayfirst : string -> exc (option datetime).
Variable to_datetime_HMS : string -> exc (option datetime).

Local Abbreviation parse :=
  (parse_datetime_from_row to_datetime_dayfirst to_datetime_HMS).

(** X6. On two structured cells the parser reads no text: it returns the
    date of the date cell at the time of the time cell, whatever the two
    text readers do. The result has that date and that time, and a
    timestamp given in both cells is returned as it is. *)
Theorem parse_structured_cells :
  forall d t : datetime,
    parse (Stamp d) (Stamp t)
    = Val (Some (datetime_combine (date_of d) (time_of t)))
    /\ date_of (datetime_combine (date_of d) (time_of t)) = date_of d
    /\ time_of (datetime_combine (date_of d) (time_of t)) = time_of t
    /\ parse (Stamp d) (Stamp d) = Val (Some d).
Proof.
  intros d t.
  assert (Ht : (0 <= time_of t < us_per_day)%Z)
    by (unfold time_of; apply Z.mod_pos_bound; unfold us_per_day; lia).
  split; [reflexivity | split; [| split]].
  - apply date_of_combine. exact Ht.
  - apply time_of_combine. exact Ht.
  - unfold parse_datetime_from_row. simpl. rewrite combine_parts_of. reflexivity.
Qed.

(** X7. White space around the text of a date or time cell does not change
    what the parser returns: a text cell parses as its stripped text does. *)
Theorem parse_ignores_surrounding_space :
  forall date_text time_text : string,
    parse (Other date_text) (Other time_text)
    = parse (Other (strip date_text)) (Other (strip time_text))
    /\ (forall ts, parse (Stamp ts) (Other time_text)
                   = parse (Stamp ts) (Other (strip time_text)))
    /\ (forall ts, parse (Other date_text) (Stamp ts)
                   = parse (Other (strip date_text)) (Stamp ts)).
Proof.
  intros date_text time_text.
  unfold parse_datetime_from_row. simpl.
  unfold date_of_text, time_of_text. rewrite !strip_idempotent.
  repeat split; reflexivity.
Qed.

End ParserOnCells.

(** ** How the three subsets relate *)

Lemma arriving_In (proc : list vessel) (current_dt end_dt : datetime) (r : vessel) :
  In r (arriving (proc_valid proc) current_dt end_dt) <->
  In r proc /\
  exists a d, arrival_dt r = Some a /\ departure_dt r = Some d /\
              (current_dt <= a <= end_dt)%Z.
Proof.
  unfold arriving. rewrite filter_In, proc_valid_In, valid_spec.
  change (col_ge (arrival_dt r) current_dt && col_le (arrival_dt r) end_dt)
    with (within (arrival_dt r) current_dt end_dt).
  rewrite within_spec. split.
  - intros [[Hin [a [d [Ha Hd]]]] [a' [Ha' Hr]]].
    rewrite Ha in Ha'. injection Ha' as <-.
    split; [exact Hin | exists a, d; auto].
  - intros [Hin [a [d [Ha [Hd Hr]]]]].
    split; [split; [exact Hin | exists a, d; auto] | exists a; auto].
Qed.

Lemma departing_In (proc : list vessel) (current_dt end_dt : datetime) (r : vessel) :
  In r (departing (proc_valid proc) current_dt end_dt) <->
  In r proc /\
  exists a d, arrival_dt r = Some a /\ departure_dt r = Some d /\
              (current_dt <= d <= end_dt)%Z.
Proof.
  unfold departing. rewrite filter_In, proc_valid_In, valid_spec.
  change (col_ge (departure_dt r) current_dt && col_le (departure_dt r) end_dt)
    with (within (departure_dt r) current_dt end_dt).
  rewrite within_spec. split.
  - intros [[Hin [a [d [Ha Hd]]]] [d' [Hd' Hr]]].
    rewrite Hd in Hd'. injection Hd' as <-.
    split; [exact Hin | exists a, d; auto].
  - intros [Hin [a [d [Ha [Hd Hr]]]]].
    split; [split; [exact Hin | exists a, d; auto] | exists d; auto].
Qed.

(** X8. In a window with [start <= end], a valid record that is in none of
    the three subsets departs before the start or arrives after the end;
    and a valid record that departs no earlier than it arrives and whose
    stay lies wholly before the start or wholly after the end is in none
    of them. *)
Theorem record_outside_every_subset :
  forall (proc : list vessel) (current_dt end_dt : datetime)
         (r : vessel) (a d : datetime),
    (current_dt <= end_dt)%Z ->
    In r proc -> arrival_dt r = Some a -> departure_dt r = Some d ->
    let pv := proc_valid proc in
    let in_none :=
      ~ In r (arriving pv current_dt end_dt)
      /\ ~ In r (departing pv current_dt end_dt)
      /\ ~ In r (in_port pv current_dt end_dt) in
    (in_none -> (d < current_dt)%Z \/ (end_dt < a)%Z)
    /\ ((a <= d)%Z -> (d < current_dt)%Z \/ (end_dt < a)%Z -> in_none).
Proof.
  intros proc current_dt end_dt r a d Hwin Hin Ha Hd pv in_none.
  unfold in_none, pv. rewrite arriving_In, departing_In, in_port_In. split.
  - intros [Harr [Hdep Hport]].
    destruct (Z.lt_ge_cases d current_dt) as [Hlt | Hge]; [left; exact Hlt |].
    destruct (Z.lt_ge_cases end_dt a) as [Hlt' | Hge']; [right; exact Hlt' |].
    exfalso.
    destruct (Z.eq_dec d current_dt) as [Heq | Hne].
    + apply Hdep. split; [exact Hin | exists a, d; repeat split; auto; lia].
    + destruct (Z.eq_dec a end_dt) as [Heq' | Hne'].
      * apply Harr. split; [exact Hin | exists a, d; repeat split; auto; lia].
      * apply Hport. split; [exact Hin | exists a, d; repeat split; auto; lia].
  - intros Hord Hout.
    repeat split; intros [_ [a' [d' [Ha' [Hd' Hrange]]]]];
      rewrite Ha in Ha'; rewrite Hd in Hd';
      injection Ha' as <-; injection Hd' as <-; lia.
Qed.

Lemma record_outside_every_subset_witness :
  ~ In vessel_C (arriving (proc_valid [vessel_C; vessel_D]) w_start w_end)
  /\ ~ In vessel_C (departing (proc_valid [vessel_C; vessel_D]) w_start w_end)
  /\ ~ In vessel_C (in_port (proc_valid [vessel_C; vessel_D]) w_start w_end).
Proof.
  assert (Hwin : (w_start <= w_end)%Z) by (vm_compute; discriminate).
  assert (Hin : In vessel_C [vessel_C; vessel_D]) by (left; reflexivity).
  apply (proj2 (record_outside_every_subset
                  [vessel_C; vessel_D] vessel_C Hwin Hin eq_refl eq_refl)).
  - vm_compute. discriminate.
  - left. vm_compute. reflexivity.
Defined.

(** X9. A record that arrives strictly before it departs and is Arriving is
    also In-Port unless it arrives exactly at the end of the window; one
    that is Departing is also In-Port unless it departs exactly at the
    start of the window. *)
Theorem arriving_departing_in_port :
  forall (proc : list vessel) (current_dt end_dt : datetime)
         (r : vessel) (a d : datetime),
    arrival_dt r = Some a -> departure_dt r = Some d -> (a < d)%Z ->
    let pv := proc_valid proc in
    (In r (arriving pv current_dt end_dt) -> a <> end_dt ->
     In r (in_port pv current_dt end_dt))
    /\ (In r (departing pv current_dt end_dt) -> d <> current_dt ->
        In r (in_port pv current_dt end_dt)).
Proof.
  intros proc current_dt end_dt r a d Ha Hd Hord pv. unfold pv.
  rewrite arriving_In, departing_In, in_port_In.
  split; intros [Hin [a' [d' [Ha' [Hd' Hrange]]]]] Hne;
    rewrite Ha in Ha'; rewrite Hd in Hd';
    injection Ha' as <-; injection Hd' as <-;
    (split; [exact Hin | exists a, d; repeat split; auto; lia]).
Qed.

Lemma arriving_departing_in_port_witness :
  In vessel_A (departing (proc_valid [vessel_A]) w_start w_end)
  /\ In vessel_A (in_port (proc_valid [vessel_A]) w_start w_end).
Proof.
  assert (Hord : (ymd_hms 2025 10 10 8 0 0 < ymd_hms 2025 10 15 10 0 0)%Z)
    by (vm_compute; reflexivity).
  assert (Hdep : In vessel_A (departing (proc_valid [vessel_A]) w_start w_end))
    by (vm_compute; left; reflexivity).
  split; [exact Hdep |].
  apply (proj2 (arriving_departing_in_port
                  [vessel_A] w_start w_end vessel_A eq_refl eq_refl Hord) Hdep).
  vm_compute. discriminate.
Defined.

(** ** The deadweight KPIs (app.py, lines 183-201) *)

Lemma sum_all_missing (l : list vessel) :
  forallb (fun r => negb (notna (DWT r))) l = true ->
  sum (map (fun r => fillna0 (DWT r)) l) = 0%Z.
Proof.
  unfold sum. induction l as [|r l IH]; simpl; [reflexivity |].
  intros H. apply andb_true_iff in H. destruct H as [Hr Hl].
  destruct (DWT r); [discriminate |]. simpl fillna0.
  change (add64 0 0) with 0%Z. exact (IH Hl).
Qed.

Lemma kpi_dwt_sum (subset : list vessel) :
  kpi_dwt subset = int (sum (map (fun r => fillna0 (DWT r)) subset)).
Proof.
  unfold kpi_dwt.
  destruct (forallb (fun r => negb (notna (DWT r))) subset) eqn:Hall; simpl.
  - rewrite (sum_all_missing subset Hall). reflexivity.
  - destruct subset as [|r l]; [reflexivity |].
    replace (0 <? Z.of_nat (List.length (r :: l)))%Z with true; [reflexivity |].
    symmetry. apply Z.ltb_lt. simpl List.length. lia.
Qed.

Lemma kpi_dwt_is_sum_all_missing (subset : list vessel) :
  (forall r, In r subset -> DWT r = None) -> kpi_dwt subset = 0%Z.
Proof.
  intros Hall. rewrite kpi_dwt_sum.
  rewrite (sum_all_missing subset); [reflexivity |].
  apply forallb_forall. intros r Hr. rewrite (Hall r Hr). reflexivity.
Qed.

(** X10. The deadweight shown under a count is [int] of the sum of the
    deadweight column of the subset, a missing deadweight counting as 0,
    in every case: the two guards of the expression (every deadweight
    missing, empty subset) only cover cases where that sum is 0 already. *)
Theorem kpi_dwt_is_sum :
  forall subset : list vessel,
    kpi_dwt subset = int (sum (map (fun r => fillna0 (DWT r)) subset))
    /\ ((forall r, In r subset -> DWT r = None) -> kpi_dwt subset = 0%Z)
    /\ kpi_dwt [] = 0%Z.
Proof.
  intros subset. split; [apply kpi_dwt_sum | split; [| reflexivity]].
  apply kpi_dwt_is_sum_all_missing.
Qed.

Lemma total_filter_split (f : vessel -> Z) (p : vessel -> bool) (l : list vessel) :
  total (map f l)
  = (total (map f (filter p l))
     + total (map f (filter (fun r => negb (p r)) l)))%Z.
Proof.
  induction l as [|r l IH]; simpl; [reflexivity |].
  rewrite total_cons, IH. destruct (p r); simpl; rewrite total_cons; lia.
Qed.

(** X11. In a window with [end > start], when the deadweights of the
    In-Port records are whole numbers whose absolute values add up to at
    most 2^53, the In-Port deadweight is the initial deadweight of the
    series plus the deadweight of the In-Port vessels that arrive at or
    after the start of the window. *)
Theorem in_port_dwt_split :
  forall (proc : list vessel) (current_dt end_dt : datetime),
    (current_dt < end_dt)%Z ->
    let pv := proc_valid proc in
    (tonnage (in_port pv current_dt end_dt) <= exact_limit)%Z ->
    kpi_dwt (in_port pv current_dt end_dt)
    = (initial_dwt pv current_dt
       + sum (map (fun r => fillna0 (DWT r))
                  (filter (fun r => col_ge (arrival_dt r) current_dt)
                          (in_port pv current_dt end_dt))))%Z.
Proof.
  intros proc current_dt end_dt Hwin pv Hb.
  assert (Hstart : present_at_start pv current_dt
                   = filter (fun r => col_lt (arrival_dt r) current_dt)
                            (in_port pv current_dt end_dt)).
  { unfold present_at_start, in_port.
    apply filter_of_filter. intros r _.
    destruct (arrival_dt r) as [a|], (departure_dt r) as [d|]; simpl;
      try reflexivity.
    + destruct (Z.ltb_spec a current_dt), (Z.ltb_spec a end_dt),
               (Z.ltb_spec current_dt d); simpl; try reflexivity; lia.
    + rewrite !andb_false_r. reflexivity. }
  assert (Hlate : filter (fun r => negb (col_lt (arrival_dt r) current_dt))
                         (in_port pv current_dt end_dt)
                  = filter (fun r => col_ge (arrival_dt r) current_dt)
                           (in_port pv current_dt end_dt)).
  { apply filter_ext_in. intros r Hr.
    unfold in_port in Hr. apply filter_In in Hr. destruct Hr as [_ Hr].
    apply andb_true_iff in Hr. destruct Hr as [Hr _].
    destruct (arrival_dt r) as [a|]; simpl in *; [| discriminate].
    destruct (Z.ltb_spec a current_dt), (Z.leb_spec current_dt a);
      simpl; try reflexivity; lia. }
  rewrite kpi_dwt_sum. unfold int, initial_dwt. rewrite Hstart.
  pose proof (tonnage_filter (fun r => col_lt (arrival_dt r) current_dt)
                (in_port pv current_dt end_dt)) as H1.
  pose proof (tonnage_filter (fun r => col_ge (arrival_dt r) current_dt)
                (in_port pv current_dt end_dt)) as H2.
  rewrite !sum_dwt_exact by lia.
  rewrite (total_filter_split (fun r => fillna0 (DWT r))
             (fun r => col_lt (arrival_dt r) current_dt)).
  rewrite Hlate. reflexivity.
Qed.

Lemma in_port_dwt_split_witness :
  kpi_dwt (in_port (proc_valid [vessel_A; vessel_B; vessel_D]) w_start w_end)
  = (initial_dwt (proc_valid [vessel_A; vessel_B; vessel_D]) w_start
     + sum (map (fun r => fillna0 (DWT r))
                (filter (fun r => col_ge (arrival_dt r) w_start)
                        (in_port (proc_valid [vessel_A; vessel_B; vessel_D])
                                 w_start w_end))))%Z.
Proof.
  apply (in_port_dwt_split [vessel_A; vessel_B; vessel_D]).
  - vm_compute. reflexivity.
  - vm_compute. discriminate.
Defined.

Lemma dwt_timeline_length (pv : list vessel) (current_dt end_dt : datetime) :
  List.length (dwt_timeline pv current_dt end_dt)
  = (List.length
       (filter (fun r => notna (DWT r) && within (arrival_dt r) current_dt end_dt)
               pv)
     + List.length
         (filter (fun r => notna (DWT r)
                           && within (departure_dt r) current_dt end_dt)
                 pv))%nat.
Proof.
  unfold dwt_timeline. induction pv as [|r l IH]; [reflexivity |].
  simpl flat_map. rewrite length_app, row_events_length, IH.
  rewrite !filter_length_cons. lia.
Qed.

Lemma filter_and_length {A : Type} (p q : A -> bool) (l : list A) :
  (List.length (filter (fun x => p x && q x) l) <= List.length (filter q l))%nat.
Proof.
  induction l as [|x l IH]; simpl; [lia |].
  destruct (p x), (q x); simpl; lia.
Qed.

Lemma filter_and_all {A : Type} (p q : A -> bool) (l : list A) :
  (forall x, In x (filter q l) -> p x = true) ->
  filter (fun x => p x && q x) l = filter q l.
Proof.
  intros Hall. apply filter_ext_in. intros x Hx.
  destruct (q x) eqn:Hq; [| apply andb_false_r].
  rewrite (Hall x); [reflexivity |]. apply filter_In. auto.
Qed.

(** X12. The events of the deadweight series are among the operations the
    dashboard counts: there are at most as many as "Total Operations", and
    exactly as many when every Arriving and every Departing record has a
    deadweight on record. *)
Theorem dwt_events_among_operations :
  forall (proc : list vessel) (current_dt end_dt : datetime),
    let pv := proc_valid proc in
    let operations :=
      total_operations (arriving pv current_dt end_dt)
                       (departing pv current_dt end_dt) in
    (Z.of_nat (List.length (dwt_timeline pv current_dt end_dt)) <= operations)%Z
    /\ ((forall r, In r (arriving pv current_dt end_dt)
                   \/ In r (departing pv current_dt end_dt) ->
                   DWT r <> None) ->
        Z.of_nat (List.length (dwt_timeline pv current_dt end_dt)) = operations).
Proof.
  intros proc current_dt end_dt pv operations.
  unfold operations, total_operations. rewrite dwt_timeline_length.
  rewrite Nat2Z.inj_add. split.
  - pose proof (filter_and_length (fun r => notna (DWT r))
                  (fun r => within (arrival_dt r) current_dt end_dt) pv).
    pose proof (filter_and_length (fun r => notna (DWT r))
                  (fun r => within (departure_dt r) current_dt end_dt) pv).
    unfold arriving, departing, within in *. lia.
  - intros Hall. unfold arriving, departing in *.
    rewrite (filter_and_all (fun r => notna (DWT r))
               (fun r => within (arrival_dt r) current_dt end_dt)),
            (filter_and_all (fun r => notna (DWT r))
               (fun r => within (departure_dt r) current_dt end_dt)).
    + reflexivity.
    + intros r Hr. destruct (DWT r) eqn:Hw; [reflexivity |].
      exfalso. apply (Hall r); [right; exact Hr | exact Hw].
    + intros r Hr. destruct (DWT r) eqn:Hw; [reflexivity |].
      exfalso. apply (Hall r); [left; exact Hr | exact Hw].
Qed.


(** ** The series with events (app.py, lines 403-420) *)

Lemma insert_by_Date_perm (e : event) (l : list event) :
  Permutation (insert_by_Date e l) (e :: l).
Proof.
  induction l as [|x t IH]; simpl; [apply Permutation_refl |].
  destruct (ev_Date e <=? ev_Date x)%Z; [apply Permutation_refl |].
  apply perm_trans with (x :: e :: t); [apply perm_skip; exact IH | apply perm_swap].
Qed.

Lemma sort_values_Date_perm (l : list event) :
  Permutation (sort_values_Date l) l.
Proof.
  unfold sort_values_Date. induction l as [|e l IH]; simpl; [constructor |].
  apply perm_trans with (e :: fold_right insert_by_Date [] l);
    [apply insert_by_Date_perm | apply perm_skip; exact IH].
Qed.

Lemma insert_by_Date_sorted (e : event) (l : list event) :
  StronglySorted Z.le (map ev_Date l) ->
  StronglySorted Z.le (map ev_Date (insert_by_Date e l)).
Proof.
  induction l as [|x t IH]; simpl; intros Hs.
  - constructor; constructor.
  - destruct (Z.leb_spec (ev_Date e) (ev_Date x)) as [Hle | Hgt]; simpl.
    + constructor; [exact Hs |].
      apply StronglySorted_inv in Hs. destruct Hs as [_ Hall].
      constructor; [exact Hle |].
      apply Forall_forall. intros y Hy.
      rewrite Forall_forall in Hall. specialize (Hall y Hy). lia.
    + apply StronglySorted_inv in Hs. destruct Hs as [Hs Hall].
      constructor; [apply IH; exact Hs |].
      apply Forall_forall. intros y Hy.
      apply in_map_iff in Hy. destruct Hy as [ev [<- Hev]].
      apply (Permutation_in _ (insert_by_Date_perm e t)) in Hev.
      destruct Hev as [<- | Hev]; [lia |].
      rewrite Forall_forall in Hall. apply Hall. apply in_map. exact Hev.
Qed.

Lemma sort_values_Date_sorted (l : list event) :
  StronglySorted Z.le (map ev_Date (sort_values_Date l)).
Proof.
  unfold sort_values_Date. induction l as [|e l IH]; simpl; [constructor |].
  apply insert_by_Date_sorted. exact IH.
Qed.

(** X13. Sorting the events by date keeps every event, each as many times
    as it occurs, and leaves their dates in non-decreasing order. *)
Theorem sort_values_Date_sorts :
  forall l : list event,
    Permutation (sort_values_Date l) l
    /\ StronglySorted Z.le (map ev_Date (sort_values_Date l))
    /\ List.length (sort_values_Date l) = List.length l.
Proof.
  intros l. split; [apply sort_values_Date_perm | split].
  - apply sort_values_Date_sorted.
  - apply Permutation_length. apply sort_values_Date_perm.
Qed.

Lemma series_rows64_eq (initial : Z) (evs : list event) (acc : Z) :
  map (fun ev : event * Z =>
         mkPoint (ev_Date (fst ev)) (snd ev) (ev_Type (fst ev)))
      (combine evs
               (map (fun c => add64 initial c)
                    (cumsum_from acc (map DWT_Change evs))))
  = series_rows64 initial acc evs.
Proof.
  revert acc. induction evs as [|e evs IH]; intros acc; [reflexivity |].
  simpl. rewrite IH. reflexivity.
Qed.

Lemma series_rows64_dates (initial : Z) (evs : list event) (acc : Z) :
  map pt_Date (series_rows64 initial acc evs) = map ev_Date evs.
Proof.
  revert acc. induction evs as [|e evs IH]; intros acc; [reflexivity |].
  simpl. rewrite IH. reflexivity.
Qed.

Lemma series_rows64_length (initial : Z) (evs : list event) (acc : Z) :
  List.length (series_rows64 initial acc evs) = List.length evs.
Proof.
  revert acc. induction evs as [|e evs IH]; intros acc; [reflexivity |].
  simpl. rewrite IH. reflexivity.
Qed.

(** Within the bound the machine additions of the series are exact. *)
Lemma series_rows64_exact (initial : Z) (evs : list event) (acc : Z) :
  (Z.abs initial + Z.abs acc
   + total (map (fun ev => Z.abs (DWT_Change ev)) evs) <= exact_limit)%Z ->
  series_rows64 initial acc evs = series_rows initial acc evs.
Proof.
  revert acc. induction evs as [|e evs IH]; intros acc Hb; [reflexivity |].
  simpl map in Hb. rewrite total_cons in Hb.
  assert (Hnn : (0 <= total (map (fun ev => Z.abs (DWT_Change ev)) evs))%Z).
  { rewrite <- (map_map DWT_Change Z.abs). apply total_abs_nonneg. }
  assert (H1 : add64 acc (DWT_Change e) = (acc + DWT_Change e)%Z).
  { unfold add64. apply wrap64_small. unfold exact_limit in Hb. lia. }
  assert (H2 : add64 initial (acc + DWT_Change e)
               = (initial + (acc + DWT_Change e))%Z).
  { unfold add64. apply wrap64_small. unfold exact_limit in Hb. lia. }
  simpl. rewrite H1, H2, IH; [reflexivity | lia].
Qed.

Lemma series_rows_steps (initial : Z) (evs : list event) :
  forall (acc : Z) (p0 : point) (k : nat) (ev : event),
    pt_DWT_in_Port p0 = (initial + acc)%Z ->
    nth_error evs k = Some ev ->
    exists p prev,
      nth_error (series_rows initial acc evs) k = Some p
      /\ nth_error (p0 :: series_rows initial acc evs) k = Some prev
      /\ pt_Date p = ev_Date ev /\ pt_Type p = ev_Type ev
      /\ pt_DWT_in_Port p = (pt_DWT_in_Port prev + DWT_Change ev)%Z.
Proof.
  induction evs as [|e evs IH]; intros acc p0 k ev Hp0 Hk.
  - destruct k; discriminate.
  - destruct k as [|k]; simpl in Hk.
    + injection Hk as <-. eexists. exists p0. simpl.
      repeat split; try reflexivity. simpl. rewrite Hp0. lia.
    + destruct (IH (acc + DWT_Change e)%Z
                   (mkPoint (ev_Date e) (initial + (acc + DWT_Change e))%Z
                            (ev_Type e))
                   k ev eq_refl Hk) as [p [prev [H1 [H2 H3]]]].
      exists p, prev. simpl. auto.
Qed.

Lemma series_rows_dates (initial : Z) (evs : list event) (acc : Z) :
  map pt_Date (series_rows initial acc evs) = map ev_Date evs.
Proof.
  revert acc. induction evs as [|e evs IH]; intros acc; [reflexivity |].
  simpl. rewrite IH. reflexivity.
Qed.

Lemma series_rows_length (initial : Z) (evs : list event) (acc : Z) :
  List.length (series_rows initial acc evs) = List.length evs.
Proof.
  revert acc. induction evs as [|e evs IH]; intros acc; [reflexivity |].
  simpl. rewrite IH. reflexivity.
Qed.

Lemma series_rows_last (initial : Z) (evs : list event) :
  forall (acc : Z) (p0 : point),
    pt_DWT_in_Port p0 = (initial + acc)%Z ->
    pt_DWT_in_Port (last (series_rows initial acc evs) p0)
    = (initial + acc + total (map DWT_Change evs))%Z.
Proof.
  induction evs as [|e evs IH]; intros acc p0 Hp0.
  - simpl. rewrite Hp0, total_nil. lia.
  - simpl map. rewrite total_cons.
    set (p1 := mkPoint (ev_Date e) (initial + (acc + DWT_Change e))%Z (ev_Type e)).
    specialize (IH (acc + DWT_Change e)%Z p1 eq_refl).
    change (series_rows initial acc (e :: evs))
      with (p1 :: series_rows initial (acc + DWT_Change e)%Z evs).
    destruct (series_rows initial (acc + DWT_Change e)%Z evs) as [|q rows] eqn:E.
    + simpl in IH |- *. lia.
    + change (last (p1 :: q :: rows) p0) with (last (q :: rows) p0).
      assert (Hlast : last (q :: rows) p0 = last (q :: rows) p1).
      { clear. revert q. induction rows as [|x rows IHr]; intros q;
          [reflexivity |].
        change (last (q :: x :: rows) p0) with (last (x :: rows) p0).
        change (last (q :: x :: rows) p1) with (last (x :: rows) p1).
        apply IHr. }
      rewrite Hlast, IH. lia.
Qed.

Lemma total_perm (l l' : list Z) : Permutation l l' -> total l = total l'.
Proof.
  induction 1 as [| x l l' _ IH | x y l | l l' l'' _ IH1 _ IH2].
  - reflexivity.
  - rewrite !total_cons, IH. reflexivity.
  - rewrite !total_cons. lia.
  - rewrite IH1. exact IH2.
Qed.

Lemma dwt_plot_with_events (pv : list vessel) (current_dt end_dt : datetime) :
  dwt_timeline pv current_dt end_dt <> [] ->
  dwt_plot pv current_dt end_dt
  = Some (mkPoint current_dt (initial_dwt pv current_dt) Initial
          :: series_rows64 (initial_dwt pv current_dt) 0
                           (sort_values_Date (dwt_timeline pv current_dt end_dt))).
Proof.
  intros Hne. unfold dwt_plot.
  destruct (dwt_timeline pv current_dt end_dt) as [|e l] eqn:E;
    [contradiction |].
  simpl is_empty. simpl negb. simpl orb. cbv iota.
  unfold cumsum. rewrite series_rows64_eq. reflexivity.
Qed.

Lemma total_changes_split (l : list event) :
  total (map DWT_Change l)
  = (total (map ev_DWT (filter (fun x => label_eqb (ev_Type x) Arrival) l))
     - total (map ev_DWT
                  (filter (fun x => negb (label_eqb (ev_Type x) Arrival)) l)))%Z.
Proof.
  induction l as [|x l IH]; [reflexivity |].
  simpl. rewrite total_cons, IH. unfold DWT_Change.
  destruct (label_eqb (ev_Type x) Arrival); simpl; rewrite total_cons; lia.
Qed.

Lemma abs_DWT_Change (ev : event) : Z.abs (DWT_Change ev) = Z.abs (ev_DWT ev).
Proof.
  unfold DWT_Change. destruct (label_eqb (ev_Type ev) Arrival); lia.
Qed.

(** Within the bound on what the series adds up, the initial deadweight is
    the sum of the integers and the rows of the series are exact. *)
Lemma series_within_bound (pv : list vessel) (current_dt end_dt : datetime) :
  (series_tonnage pv current_dt end_dt <= exact_limit)%Z ->
  series_rows64 (initial_dwt pv current_dt) 0
                (sort_values_Date (dwt_timeline pv current_dt end_dt))
  = series_rows (initial_dwt pv current_dt) 0
                (sort_values_Date (dwt_timeline pv current_dt end_dt)).
Proof.
  unfold series_tonnage. intros Hb.
  set (events := dwt_timeline pv current_dt end_dt) in *.
  assert (Hev : (0 <= total (map (fun ev => Z.abs (ev_DWT ev)) events))%Z).
  { rewrite <- (map_map ev_DWT Z.abs). apply total_abs_nonneg. }
  pose proof (tonnage_nonneg (present_at_start pv current_dt)) as Hton.
  assert (Hinit : (Z.abs (initial_dwt pv current_dt)
                   <= tonnage (present_at_start pv current_dt))%Z).
  { unfold initial_dwt. rewrite sum_dwt_exact by lia.
    unfold tonnage.
    rewrite <- (map_map (fun r => fillna0 (DWT r)) Z.abs).
    apply abs_total_le. }
  apply series_rows64_exact.
  assert (Hperm : total (map (fun ev => Z.abs (DWT_Change ev))
                             (sort_values_Date events))
                  = total (map (fun ev => Z.abs (ev_DWT ev)) events)).
  { rewrite (total_perm (Permutation_map _ (sort_values_Date_perm events))).
    f_equal. apply map_ext. apply abs_DWT_Change. }
  rewrite Hperm. simpl Z.abs. lia.
Qed.

(** X14. When events fall in the window and the deadweights the series
    adds up are whole numbers whose absolute values add up to at most 2^53,
    the series starts with the initial deadweight at the start of the
    window and has one more row per event, the events being taken in an
    order of non-decreasing dates: each row carries the date and the type
    of its event, and its value is the value of the row before plus the
    deadweight of an Arrival, or minus the deadweight of a Departure. *)
Theorem dwt_plot_running_sum :
  forall (proc : list vessel) (current_dt end_dt : datetime),
    let pv := proc_valid proc in
    let events := dwt_timeline pv current_dt end_dt in
    let initial_point := mkPoint current_dt (initial_dwt pv current_dt) Initial in
    events <> [] ->
    (series_tonnage pv current_dt end_dt <= exact_limit)%Z ->
    exists ordered rows,
      Permutation ordered events
      /\ StronglySorted Z.le (map ev_Date ordered)
      /\ dwt_plot pv current_dt end_dt = Some (initial_point :: rows)
      /\ List.length rows = List.length events
      /\ forall (k : nat) (ev : event),
          nth_error ordered k = Some ev ->
          exists p prev,
            nth_error rows k = Some p
            /\ nth_error (initial_point :: rows) k = Some prev
            /\ pt_Date p = ev_Date ev /\ pt_Type p = ev_Type ev
            /\ pt_DWT_in_Port p = (pt_DWT_in_Port prev + DWT_Change ev)%Z.
Proof.
  intros proc current_dt end_dt pv events initial_point Hne Hb.
  exists (sort_values_Date events),
         (series_rows (initial_dwt pv current_dt) 0 (sort_values_Date events)).
  split; [apply sort_values_Date_perm |].
  split; [apply sort_values_Date_sorted |].
  split.
  - unfold events in *. rewrite (dwt_plot_with_events _ _ _ Hne).
    rewrite (series_within_bound pv current_dt end_dt Hb). reflexivity.
  - split.
    + rewrite series_rows_length. apply Permutation_length.
      apply sort_values_Date_perm.
    + intros k ev Hk. apply series_rows_steps; [| exact Hk].
      simpl. lia.
Qed.

Lemma dwt_plot_running_sum_witness :
  exists rows,
    dwt_plot (proc_valid [vessel_A; vessel_D]) w_start w_end
    = Some (mkPoint w_start 92000%Z Initial :: rows)
    /\ List.length rows = 1%nat.
Proof.
  destruct (dwt_plot_running_sum [vessel_A; vessel_D] w_start w_end)
    as [ordered [rows [_ [_ [Hplot [Hlen _]]]]]].
  - vm_compute. discriminate.
  - vm_compute. discriminate.
  - exists rows. split; [exact Hplot | exact Hlen].
Defined.

(** X15. When events fall in the window and the deadweights the series
    adds up are whole numbers whose absolute values add up to at most 2^53,
    the last value of the series is the initial deadweight, plus the
    deadweights of the Arrival events, minus the deadweights of the
    Departure events, whatever the order in which the sort leaves events
    of one same date. *)
Theorem dwt_plot_final_value :
  forall (proc : list vessel) (current_dt end_dt : datetime),
    let pv := proc_valid proc in
    let events := dwt_timeline pv current_dt end_dt in
    let initial_point := mkPoint current_dt (initial_dwt pv current_dt) Initial in
    events <> [] ->
    (series_tonnage pv current_dt end_dt <= exact_limit)%Z ->
    exists series,
      dwt_plot pv current_dt end_dt = Some series
      /\ pt_DWT_in_Port (last series initial_point)
         = (initial_dwt pv current_dt
            + total (map ev_DWT
                         (filter (fun x => label_eqb (ev_Type x) Arrival) events))
            - total (map ev_DWT
                         (filter (fun x => negb (label_eqb (ev_Type x) Arrival))
                                 events)))%Z.
Proof.
  intros proc current_dt end_dt pv events initial_point Hne Hb.
  exists (initial_point
          :: series_rows (initial_dwt pv current_dt) 0 (sort_values_Date events)).
  split.
  { unfold events in *. rewrite (dwt_plot_with_events _ _ _ Hne).
    rewrite (series_within_bound pv current_dt end_dt Hb). reflexivity. }
  assert (Hrows : pt_DWT_in_Port
                    (last (series_rows (initial_dwt pv current_dt) 0
                                       (sort_values_Date events))
                          initial_point)
                  = (initial_dwt pv current_dt + 0
                     + total (map DWT_Change (sort_values_Date events)))%Z)
    by (apply series_rows_last; simpl; lia).
  assert (Hlast : forall (l : list point) (p q : point),
             l <> [] -> last (p :: l) q = last l q)
    by (intros [|x l] p q H; [contradiction | reflexivity]).
  destruct (series_rows (initial_dwt pv current_dt) 0 (sort_values_Date events))
    as [|r rows] eqn:E.
  - exfalso. apply Hne.
    assert (Hlen : List.length (sort_values_Date events) = 0%nat)
      by (rewrite <- (series_rows_length (initial_dwt pv current_dt)
                        (sort_values_Date events) 0), E; reflexivity).
    rewrite (Permutation_length (sort_values_Date_perm events)) in Hlen.
    destruct events; [reflexivity | discriminate].
  - rewrite Hlast by discriminate. rewrite Hrows.
    rewrite (total_perm (Permutation_map DWT_Change (sort_values_Date_perm events))).
    rewrite total_changes_split. lia.
Qed.

Lemma dwt_plot_final_value_witness :
  exists series,
    dwt_plot (proc_valid [vessel_A; vessel_D]) w_start w_end = Some series
    /\ pt_DWT_in_Port (last series (mkPoint w_start 92000%Z Initial)) = 42000%Z.
Proof.
  destruct (dwt_plot_final_value [vessel_A; vessel_D] w_start w_end)
    as [series [Hplot Hlast]].
  - vm_compute. discriminate.
  - vm_compute. discriminate.
  - exists series. split; [exact Hplot |].
    etransitivity; [exact Hlast | vm_compute; reflexivity].
Defined.

(** X16. In a window with [start <= end], every row of the series is dated
    inside the window, and the dates of the series never decrease from one
    row to the next. *)
Theorem dwt_plot_dates_ordered :
  forall (proc : list vessel) (current_dt end_dt : datetime)
         (series : list point),
    (current_dt <= end_dt)%Z ->
    dwt_plot (proc_valid proc) current_dt end_dt = Some series ->
    Forall (fun p => (current_dt <= pt_Date p <= end_dt)%Z) series
    /\ StronglySorted Z.le (map pt_Date series).
Proof.
  intros proc current_dt end_dt series Hwin Hplot.
  set (pv := proc_valid proc) in *.
  destruct (dwt_timeline pv current_dt end_dt) as [|e0 l0] eqn:E.
  - unfold dwt_plot in Hplot. rewrite E in Hplot. simpl in Hplot.
    destruct (0 <? initial_dwt pv current_dt)%Z; [| discriminate].
    injection Hplot as <-. split.
    + repeat constructor; simpl; lia.
    + simpl. repeat constructor. exact Hwin.
  - rewrite dwt_plot_with_events in Hplot by (rewrite E; discriminate).
    injection Hplot as <-.
    assert (Hdates : Forall (fun x => (current_dt <= x <= end_dt)%Z)
                       (map ev_Date
                            (sort_values_Date (dwt_timeline pv current_dt end_dt)))).
    { apply Forall_forall. intros x Hx.
      apply in_map_iff in Hx. destruct Hx as [ev [<- Hev]].
      apply (Permutation_in _ (sort_values_Date_perm _)) in Hev.
      unfold dwt_timeline in Hev. apply in_flat_map in Hev.
      destruct Hev as [r [_ Hev]]. apply row_events_In in Hev.
      destruct Hev as [w [_ [[a [_ [Hr ->]]] | [d [_ [Hr ->]]]]]]; exact Hr. }
    split.
    + constructor; [simpl; lia |].
      apply Forall_forall. intros p Hp.
      rewrite Forall_forall in Hdates. apply Hdates.
      rewrite <- (series_rows64_dates (initial_dwt pv current_dt) _ 0).
      apply in_map. exact Hp.
    + simpl map. rewrite series_rows64_dates.
      constructor; [apply sort_values_Date_sorted |].
      simpl. apply Forall_forall. intros x Hx.
      rewrite Forall_forall in Hdates. apply (Hdates x Hx).
Qed.

Lemma dwt_plot_dates_ordered_witness :
  exists series,
    dwt_plot (proc_valid [vessel_A; vessel_B; vessel_D]) w_start w_end
    = Some series
    /\ StronglySorted Z.le (map pt_Date series).
Proof.
  assert (Hwin : (w_start <= w_end)%Z) by (vm_compute; discriminate).
  eexists. split; [vm_compute; reflexivity |].
  refine (proj2 (dwt_plot_dates_ordered
                   [vessel_A; vessel_B; vessel_D] Hwin _)).
  vm_compute. reflexivity.
Defined.

(** ** Sheets without the optional columns *)

Lemma no_deadweight_no_events (pv : list vessel) (current_dt end_dt : datetime) :
  (forall r, In r pv -> DWT r = None) ->
  dwt_timeline pv current_dt end_dt = []
  /\ initial_dwt pv current_dt = 0%Z
  /\ dwt_plot pv current_dt end_dt = None.
Proof.
  intros Hall.
  assert (Htl : dwt_timeline pv current_dt end_dt = []).
  { unfold dwt_timeline. induction pv as [|r l IH]; [reflexivity |].
    simpl. unfold row_events at 1. rewrite (Hall r (or_introl eq_refl)).
    apply IH. intros r' Hr'. apply Hall. right. exact Hr'. }
  assert (Hinit : initial_dwt pv current_dt = 0%Z).
  { unfold initial_dwt. apply sum_all_missing. apply forallb_forall.
    intros r Hr. unfold present_at_start in Hr. apply filter_In in Hr.
    rewrite (Hall r (proj1 Hr)). reflexivity. }
  split; [exact Htl | split; [exact Hinit |]].
  unfold dwt_plot. rewrite Htl, Hinit. reflexivity.
Qed.

Lemma group_keys_acc (rows : list vessel) (acc : list string) :
  (forall r, In r rows -> Berth r = None) ->
  fold_left
    (fun acc r => match Berth r with Some k => insert_key k acc | None => acc end)
    rows acc = acc.
Proof.
  revert acc. induction rows as [|r l IH]; intros acc Hall; [reflexivity |].
  simpl. rewrite (Hall r (or_introl eq_refl)).
  apply IH. intros r' Hr'. apply Hall. right. exact Hr'.
Qed.

Section OptionalColumns.

Variable to_datetime_dayfirst : string -> exc (option datetime).
Variable to_datetime_HMS : string -> exc (option datetime).

Local Abbreviation run := (dashboard to_datetime_dayfirst to_datetime_HMS).
Local Abbreviation record_of :=
  (record_of to_datetime_dayfirst to_datetime_HMS).

Lemma rendered_frame (df : DataFrame) (start_date end_date : date) (res : results) :
  run (Some (Val df)) start_date end_date = Rendered res ->
  let pv := proc_valid (map (record_of (detect df)) (index df)) in
  let current_dt := datetime_combine start_date time_min in
  let end_dt := datetime_combine end_date time_max in
  missing (detect df) = []
  /\ r_in_port res = in_port pv current_dt end_dt
  /\ r_occ res = (if is_empty (in_port pv current_dt end_dt) then None
                  else Some (occ (in_port pv current_dt end_dt)))
  /\ r_initial_dwt res = initial_dwt pv current_dt
  /\ r_dwt_plot res = dwt_plot pv current_dt end_dt.
Proof.
  intros Hrun pv current_dt end_dt. unfold dashboard in Hrun.
  destruct (_ <=? _)%Z; [discriminate |].
  destruct (missing (detect df)) eqn:Hmiss; simpl in Hrun; [| discriminate].
  unfold process in Hrun.
  rewrite (@process_from_map to_datetime_dayfirst to_datetime_HMS
             (detect df) 0%nat (index df) Hmiss) in Hrun.
  fold pv current_dt end_dt in Hrun.
  destruct (is_empty pv); [discriminate |].
  injection Hrun as <-. simpl. repeat split; reflexivity.
Qed.

(** X17. A sheet with no deadweight column still renders, when it has a
    valid row: the initial deadweight is 0, no deadweight series is emitted
    and the In-Port deadweight is 0. *)
Theorem sheet_without_dwt_column :
  forall (df : DataFrame) (start_date end_date : date) (res : results),
    col_dwt (detect df) = None ->
    run (Some (Val df)) start_date end_date = Rendered res ->
    r_initial_dwt res = 0%Z
    /\ r_dwt_plot res = None
    /\ kpi_dwt (r_in_port res) = 0%Z.
Proof.
  intros df start_date end_date res Hcol Hrun.
  destruct (@rendered_frame df start_date end_date res Hrun) as [_ [Hport [_ [Hinit Hplot]]]].
  assert (Hall : forall r,
             In r (proc_valid (map (record_of (detect df)) (index df))) ->
             DWT r = None).
  { intros r Hr. apply proc_valid_In in Hr. destruct Hr as [Hr _].
    apply in_map_iff in Hr. destruct Hr as [row [<- _]].
    change (loc_or (col_dwt (detect df)) (x_dwt row) None = None).
    rewrite Hcol. reflexivity. }
  destruct (@no_deadweight_no_events _
              (datetime_combine start_date time_min)
              (datetime_combine end_date time_max) Hall) as [_ [H0 Hnone]].
  rewrite Hinit, Hplot, Hport. repeat split; [exact H0 | exact Hnone |].
  apply kpi_dwt_is_sum_all_missing.
  intros r Hr. apply Hall. unfold in_port in Hr. apply filter_In in Hr.
  exact (proj1 Hr).
Qed.

(** X18. A sheet with no berth column still renders, when it has a valid
    row: every record has a missing berth, and the per-berth summary, when
    it is computed, has no row. *)
Theorem sheet_without_berth_column :
  forall (df : DataFrame) (start_date end_date : date) (res : results),
    col_berth (detect df) = None ->
    run (Some (Val df)) start_date end_date = Rendered res ->
    (forall r, In r (r_in_port res) -> Berth r = None)
    /\ (r_occ res = None \/ r_occ res = Some []).
Proof.
  intros df start_date end_date res Hcol Hrun.
  destruct (@rendered_frame df start_date end_date res Hrun) as [_ [Hport [Hocc _]]].
  assert (Hall : forall r, In r (r_in_port res) -> Berth r = None).
  { intros r Hr. rewrite Hport in Hr. unfold in_port in Hr.
    apply filter_In in Hr. destruct Hr as [Hr _].
    apply proc_valid_In in Hr. destruct Hr as [Hr _].
    apply in_map_iff in Hr. destruct Hr as [row [<- _]].
    change (loc_or (col_berth (detect df)) (x_berth row) None = None).
    rewrite Hcol. reflexivity. }
  split; [exact Hall |].
  rewrite Hocc, <- Hport.
  destruct (is_empty (r_in_port res)); [left; reflexivity | right].
  unfold occ, group_keys. rewrite (@group_keys_acc _ [] Hall). reflexivity.
Qed.

End OptionalColumns.

Lemma sheet_without_dwt_column_witness :
  exists res,
    dashboard ref_to_datetime_dayfirst ref_to_datetime_HMS
              (Some (Val sheet_plain)) start_2025_10_13 end_2025_10_20
    = Rendered res
    /\ r_dwt_plot res = None.
Proof.
  eexists. split; [vm_compute; reflexivity |].
  refine (proj1 (proj2 (sheet_without_dwt_column
                          ref_to_datetime_dayfirst ref_to_datetime_HMS
                          sheet_plain start_2025_10_13 end_2025_10_20 _ _))).
  - reflexivity.
  - vm_compute. reflexivity.
Defined.

Lemma sheet_without_berth_column_witness :
  exists res,
    dashboard ref_to_datetime_dayfirst ref_to_datetime_HMS
              (Some (Val sheet_plain)) start_2025_10_13 end_2025_10_20
    = Rendered res
    /\ (r_occ res = None \/ r_occ res = Some []).
Proof.
  eexists. split; [vm_compute; reflexivity |].
  refine (proj2 (sheet_without_berth_column
                   ref_to_datetime_dayfirst ref_to_datetime_HMS
                   sheet_plain start_2025_10_13 end_2025_10_20 _ _)).
  - reflexivity.
  - vm_compute. reflexivity.
Defined.

(** ** Grouping by berth (app.py, lines 327-337; lookahead_buques.py, line 33) *)

Lemma ascii_compare_refl (a : ascii) : Ascii.compare a a = Eq.
Proof. unfold Ascii.compare. apply N.compare_refl. Qed.

Lemma str_lt_irrefl (a : string) : ~ str_lt a a.
Proof.
  unfold str_lt. induction a as [|c a IH]; simpl; [discriminate |].
  rewrite ascii_compare_refl. exact IH.
Qed.

Lemma str_lt_trans (a b c : string) : str_lt a b -> str_lt b c -> str_lt a c.
Proof.
  unfold str_lt. revert b c.
  induction a as [|x a IH]; intros [|y b] [|z c]; simpl; try discriminate;
    try reflexivity.
  destruct (Ascii.compare x y) eqn:Hxy; try discriminate;
    destruct (Ascii.compare y z) eqn:Hyz; try discriminate; intros Hab Hbc.
  - apply Ascii.compare_eq_iff in Hxy, Hyz. subst.
    rewrite ascii_compare_refl. apply (IH b c Hab Hbc).
  - apply Ascii.compare_eq_iff in Hxy. subst. rewrite Hyz. reflexivity.
  - apply Ascii.compare_eq_iff in Hyz. subst. rewrite Hxy. reflexivity.
  - unfold Ascii.compare in *. rewrite N.compare_lt_iff in *.
    assert (H : (N_of_ascii x < N_of_ascii z)%N) by lia.
    apply N.compare_lt_iff in H. rewrite H. reflexivity.
Qed.

Lemma insert_key_In (k x : string) (l : list string) :
  In x (insert_key k l) <-> x = k \/ In x l.
Proof.
  induction l as [|y t IH]; simpl; [intuition |].
  destruct (String.compare k y) eqn:Hc; simpl.
  - apply String.compare_eq_iff in Hc. subst y. intuition.
  - intuition.
  - rewrite IH. intuition.
Qed.

Lemma insert_key_sorted (k : string) (l : list string) :
  StronglySorted str_lt l -> StronglySorted str_lt (insert_key k l).
Proof.
  induction l as [|y t IH]; simpl; intros Hs.
  - repeat constructor.
  - destruct (String.compare k y) eqn:Hc.
    + exact Hs.
    + constructor; [exact Hs |].
      apply StronglySorted_inv in Hs. destruct Hs as [_ Hall].
      constructor; [exact Hc |].
      apply Forall_forall. intros z Hz. rewrite Forall_forall in Hall.
      apply (str_lt_trans Hc). apply Hall. exact Hz.
    + apply StronglySorted_inv in Hs. destruct Hs as [Hs Hall].
      constructor; [apply IH; exact Hs |].
      apply Forall_forall. intros z Hz. apply insert_key_In in Hz.
      destruct Hz as [-> | Hz].
      * unfold str_lt. rewrite String.compare_antisym, Hc. reflexivity.
      * rewrite Forall_forall in Hall. apply Hall. exact Hz.
Qed.

Lemma group_keys_fold (rows : list vessel) (acc : list string) :
  StronglySorted str_lt acc ->
  let keys :=
    fold_left
      (fun acc r => match Berth r with Some k => insert_key k acc | None => acc end)
      rows acc in
  StronglySorted str_lt keys
  /\ forall k, In k keys <-> In k acc \/ exists r, In r rows /\ Berth r = Some k.
Proof.
  revert acc. induction rows as [|r l IH]; intros acc Hacc; simpl.
  - split; [exact Hacc |]. intros k. split; [auto |].
    intros [H | [r [[] _]]]. exact H.
  - destruct (Berth r) as [b|] eqn:Hb.
    + destruct (IH (insert_key b acc) (insert_key_sorted b Hacc)) as [Hs Hin].
      split; [exact Hs |]. intros k. rewrite Hin, insert_key_In. split.
      * intros [[-> | H] | [r' [Hr' Hk]]]; eauto.
      * intros [H | [r' [[<- | Hr'] Hk]]]; eauto.
        left. left. congruence.
    + destruct (IH acc Hacc) as [Hs Hin].
      split; [exact Hs |]. intros k. rewrite Hin. split.
      * intros [H | [r' [Hr' Hk]]]; eauto.
      * intros [H | [r' [[<- | Hr'] Hk]]]; eauto. congruence.
Qed.

Lemma group_keys_spec (rows : list vessel) :
  StronglySorted str_lt (group_keys rows)
  /\ NoDup (group_keys rows)
  /\ forall k, In k (group_keys rows) <-> exists r, In r rows /\ Berth r = Some k.
Proof.
  destruct (@group_keys_fold rows [] (SSorted_nil _)) as [Hs Hin].
  fold (group_keys rows) in Hs, Hin.
  split; [exact Hs | split].
  - clear Hin. induction Hs as [|k l Hs IH Hall]; constructor; [| exact IH].
    intros Hk. rewrite Forall_forall in Hall.
    exact (str_lt_irrefl (Hall k Hk)).
  - intros k. rewrite Hin. split; [intros [[] | H]; exact H | auto].
Qed.

Lemma total_filter_or (w : vessel -> Z) (p q : vessel -> bool) (l : list vessel) :
  (forall r, In r l -> p r && q r = false) ->
  total (map w (filter (fun r => p r || q r) l))
  = (total (map w (filter p l)) + total (map w (filter q l)))%Z.
Proof.
  induction l as [|r l IH]; intros Hdis; [reflexivity |].
  assert (IH' := IH (fun x Hx => Hdis x (or_intror Hx))).
  pose proof (Hdis r (or_introl eq_refl)) as Hr.
  simpl. destruct (p r), (q r); simpl in *; try discriminate;
    rewrite ?total_cons, IH'; lia.
Qed.

Lemma group_total (w : vessel -> Z) (l : list vessel) (keys : list string) :
  NoDup keys ->
  total (map (fun k => total (map w (group l k))) keys)
  = total (map w (filter (has_berth_in keys) l)).
Proof.
  induction 1 as [|k ks Hk _ IH]; simpl.
  - unfold has_berth_in. simpl.
    replace (filter _ l) with (@nil vessel); [reflexivity |].
    symmetry. induction l as [|r l IHl]; [reflexivity |].
    simpl. destruct (Berth r); exact IHl.
  - rewrite total_cons, IH. unfold group.
    rewrite <- total_filter_or.
    + f_equal. f_equal. apply filter_ext. intros r. unfold has_berth_in.
      destruct (Berth r); reflexivity.
    + intros r _. unfold has_berth_in.
      destruct (Berth r) as [b|]; [| reflexivity].
      destruct (String.eqb_spec b k) as [-> | _]; [| reflexivity].
      simpl. destruct (existsb (String.eqb k) ks) eqn:E; [| reflexivity].
      exfalso. apply Hk. apply existsb_eqb_In. exact E.
Qed.

Lemma group_keys_cover (l : list vessel) :
  filter (has_berth_in (group_keys l)) l = filter (fun r => notna (Berth r)) l.
Proof.
  apply filter_ext_in. intros r Hr. unfold has_berth_in.
  destruct (Berth r) as [b|] eqn:Hb; [| reflexivity].
  simpl. apply existsb_eqb_In. apply group_keys_spec. exists r. auto.
Qed.

Lemma count_as_total (g : list vessel) :
  count (map SHIP g)
  = total (map (fun r => if notna (SHIP r) then 1%Z else 0%Z) g).
Proof.
  unfold count. induction g as [|r g IH]; [reflexivity |].
  simpl map. rewrite total_cons, <- IH. simpl filter.
  destruct (notna (SHIP r)); simpl List.length; lia.
Qed.

Lemma group_counts_total (l : list vessel) :
  total (map (fun k => count (map SHIP (group l k))) (group_keys l))
  = count (map SHIP (filter (fun r => notna (Berth r)) l)).
Proof.
  destruct (group_keys_spec l) as [_ [Hnd _]].
  rewrite count_as_total, <- group_keys_cover, <- (group_total _ l Hnd).
  f_equal. apply map_ext. intros k. apply count_as_total.
Qed.

(** X19. The per-berth summary has one row per berth of the In-Port
    records, no berth twice; a record with no berth is in no row. Over the
    rows, the vessel counts add up to the number of In-Port records that
    have a berth and a name; and, when the deadweights of the In-Port
    records are whole numbers whose absolute values add up to at most
    2^53, the deadweights of the rows add up to the deadweight of the
    In-Port records that have a berth. *)
Theorem occ_partitions_by_berth :
  forall in_port : list vessel,
    NoDup (map occ_Berth (occ in_port))
    /\ (forall k, In k (map occ_Berth (occ in_port)) <->
                  exists r, In r in_port /\ Berth r = Some k)
    /\ total (map Vessels (occ in_port))
       = count (map SHIP (filter (fun r => notna (Berth r)) in_port))
    /\ ((tonnage in_port <= exact_limit)%Z ->
        total (map Total_DWT (occ in_port))
        = total (map (fun r => fillna0 (DWT r))
                     (filter (fun r => notna (Berth r)) in_port))).
Proof.
  intros l. unfold occ. rewrite !map_map. simpl. rewrite map_id.
  destruct (group_keys_spec l) as [_ [Hnd Hin]].
  split; [exact Hnd | split; [exact Hin | split]].
  - apply group_counts_total.
  - intros Hb.
    rewrite <- group_keys_cover, <- (group_total _ l Hnd).
    f_equal. apply map_ext. intros k. apply sum_dwt_exact.
    pose proof (tonnage_filter
                  (fun r => match Berth r with
                            | Some b => String.eqb b k
                            | None => false
                            end) l) as Hle.
    unfold group. lia.
Qed.

(** X20. The occupancy the lookahead script reports at an instant has one
    entry per berth of the active vessels, no berth twice, and its counts
    add up to the number of active vessels that have a berth and a name. *)
Theorem ocupacion_counts_active :
  forall (df : list vessel) (tiempo_actual : datetime) (lookahead_h : Z),
    let occupied := ocupacion df tiempo_actual lookahead_h in
    let active := activos df tiempo_actual lookahead_h in
    NoDup (map fst occupied)
    /\ (forall k, In k (map fst occupied) <->
                  exists r, In r active /\ Berth r = Some k)
    /\ total (map snd occupied)
       = count (map SHIP (filter (fun r => notna (Berth r)) active)).
Proof.
  intros df t L occupied active. unfold occupied, ocupacion. fold active.
  rewrite !map_map. simpl. rewrite map_id.
  destruct (group_keys_spec active) as [_ [Hnd Hin]].
  split; [exact Hnd | split; [exact Hin |]].
  apply group_counts_total.
Qed.

(** X21. With a lookahead of [L >= 0] hours, a vessel that departs no
    earlier than it arrives is active at [t] exactly when some instant of
    its stay lies in [[t, t + L]]; and a vessel active with one lookahead
    stays active with any longer one. *)
Theorem activos_overlap :
  forall (df : list vessel) (tiempo_actual : datetime) (lookahead_h : Z)
         (r : vessel) (a d : datetime),
    (0 <= lookahead_h)%Z ->
    arrival_dt r = Some a -> departure_dt r = Some d -> (a <= d)%Z ->
    (In r (activos df tiempo_actual lookahead_h) <->
     In r df /\
     exists x, (a <= x <= d)%Z
               /\ (tiempo_actual <= x
                   <= tiempo_actual + Timedelta_hours lookahead_h)%Z)
    /\ (forall longer : Z,
           (lookahead_h <= longer)%Z ->
           In r (activos df tiempo_actual lookahead_h) ->
           In r (activos df tiempo_actual longer)).
Proof.
  intros df t L r a d HL Ha Hd Hord.
  assert (Hact : forall h, In r (activos df t h) <->
                           In r df /\ (a <= t + Timedelta_hours h)%Z /\ (t <= d)%Z).
  { intros h. unfold activos.
    rewrite filter_In, andb_true_iff, col_le_spec, col_ge_spec. split.
    - intros [Hin [[a' [Ha' Hle]] [d' [Hd' Hge]]]].
      rewrite Ha in Ha'. rewrite Hd in Hd'.
      injection Ha' as <-. injection Hd' as <-. auto.
    - intros [Hin [Hle Hge]]. split; [exact Hin |].
      split; [exists a | exists d]; auto. }
  split.
  - rewrite Hact. unfold Timedelta_hours in *. split.
    + intros [Hin [Hle Hge]]. split; [exact Hin |].
      exists (Z.max a t). lia.
    + intros [Hin [x Hx]]. split; [exact Hin | lia].
  - intros longer Hlong. rewrite !Hact. unfold Timedelta_hours.
    intros [Hin [Hle Hge]]. split; [exact Hin | lia].
Qed.

Lemma activos_overlap_witness :
  In vessel_A (activos [vessel_A; vessel_C] w_start 24)
  /\ In vessel_A (activos [vessel_A; vessel_C] w_start 48).
Proof.
  assert (HL : (0 <= 24)%Z) by lia.
  assert (Hord : (ymd_hms 2025 10 10 8 0 0 <= ymd_hms 2025 10 15 10 0 0)%Z)
    by (vm_compute; discriminate).
  assert (Hin : In vessel_A (activos [vessel_A; vessel_C] w_start 24))
    by (vm_compute; left; reflexivity).
  split; [exact Hin |].
  apply (proj2 (activos_overlap [vessel_A; vessel_C] w_start vessel_A
                                HL eq_refl eq_refl Hord) 48%Z); [lia | exact Hin].
Defined.
